(** * carHUD: the OBD-II telemetry engine (OBDService)

    A shallow embedding of the [OBDService] class and of the pure helpers of
    the HUD hooks, with the properties proved about them.

    Conventions of the embedding.
    - A JavaScript string is a Rocq [string]; the character with code [n]
      stands for the code unit [n], so that the strings of the model are
      those of code units up to 255 (the ELM327 protocol is ASCII).
    - A JavaScript number is a binary64 float ([PrimFloat.float]), with the
      IEEE operations of the kernel; [NaN] is [nan].
    - An object that the code shares by reference (the live snapshot
      [this.data], the [this.listeners] array) lives in a store and is named
      by its location; a spread copy allocates a new location.
    - An [async] method is run to completion: its result is [Ok] (the promise
      resolves) or [Throw] (it rejects), with the state reached.  The
      polling callback, which [setInterval] fires without waiting for the
      one before, is given in two halves, up to its [await] and after it. *)

From Stdlib Require Import ZArith NArith Arith Bool List Lia.
From Stdlib Require Import String Ascii.
From Stdlib Require Import Floats.
From Stdlib.Strings Require Import Byte.
Import ListNotations.

(* ================================================================== *)
(** ** JavaScript strings *)
(* ================================================================== *)

Module JS.

Open Scope string_scope.

(** [\s] of a regular expression and the characters removed by [trim()]:
    TAB, LF, VT, FF, CR, SPACE and NBSP. *)
Definition isWhiteSpace (c : ascii) : bool :=
  let n := N_of_ascii c in
  ((9 <=? n) && (n <=? 13) || (n =? 32) || (n =? 160))%N.

(** [s.replace(/[\s\r\n]/g, '')] *)
Fixpoint removeWhitespace (s : string) : string :=
  match s with
  | EmptyString => EmptyString
  | String c r =>
      if isWhiteSpace c then removeWhitespace r
      else String c (removeWhitespace r)
  end.

(** The upper case of one character, as [toUpperCase] gives it for the
    code units up to 255: the letters [a]-[z] and the accented letters
    224-254 (but for the division sign 247) move down by 32, the sharp s 223
    becomes the two letters [SS], every other character is kept.  The
    capitals of the micro sign 181 and of the y with diaeresis 255 lie above
    255 (U+039C, U+0178): the two characters stand for their capitals, which
    like them are neither white space nor digits. *)
Definition upperChars (c : ascii) : string :=
  let n := N_of_ascii c in
  if ((97 <=? n) && (n <=? 122))%N then String (ascii_of_N (n - 32)) EmptyString
  else if (n =? 223)%N then "SS"
  else if ((224 <=? n) && (n <=? 254) && negb (n =? 247))%N
       then String (ascii_of_N (n - 32)) EmptyString
  else String c EmptyString.

(** [s.toUpperCase()] *)
Fixpoint toUpperCase (s : string) : string :=
  match s with
  | EmptyString => EmptyString
  | String c r => (upperChars c ++ toUpperCase r)%string
  end.

(** [s.startsWith(p)] *)
Definition startsWith (p s : string) : bool := String.prefix p s.

Fixpoint drop (n : nat) (s : string) : string :=
  match n, s with
  | O, _ => s
  | S k, EmptyString => EmptyString
  | S k, String _ r => drop k r
  end.

Fixpoint take (n : nat) (s : string) : string :=
  match n, s with
  | O, _ => EmptyString
  | S k, EmptyString => EmptyString
  | S k, String c r => String c (take k r)
  end.

(** [s.substring(a, b)]: both ends are clamped to the length and swapped
    when [a > b]. *)
Definition substring (a b : nat) (s : string) : string :=
  let len := String.length s in
  let lo := Nat.min (Nat.min a b) len in
  let hi := Nat.min (Nat.max a b) len in
  take (hi - lo) (drop lo s).

(** [s.substring(a)] *)
Definition substringFrom (a : nat) (s : string) : string := drop a s.

Fixpoint trimStart (s : string) : string :=
  match s with
  | EmptyString => EmptyString
  | String c r => if isWhiteSpace c then trimStart r else s
  end.

Fixpoint trimEnd (s : string) : string :=
  match s with
  | EmptyString => EmptyString
  | String c r =>
      match trimEnd r with
      | EmptyString => if isWhiteSpace c then EmptyString else String c EmptyString
      | r' => String c r'
      end
  end.

(** [s.trim()] *)
Definition trim (s : string) : string := trimEnd (trimStart s).

(** [s.includes(c)] for a one-character [c] *)
Fixpoint includes (sep : ascii) (s : string) : bool :=
  match s with
  | EmptyString => false
  | String c r => if Ascii.eqb c sep then true else includes sep r
  end.

(** [s.split(c)] for a one-character separator: never empty, one more
    piece than there are separators. *)
Fixpoint split (sep : ascii) (s : string) : list string :=
  match s with
  | EmptyString => [EmptyString]
  | String c r =>
      if Ascii.eqb c sep then EmptyString :: split sep r
      else match split sep r with
           | [] => [String c EmptyString]
           | h :: t => String c h :: t
           end
  end.

(** [s.includes(p)] for a string [p] *)
Fixpoint includesStr (p s : string) : bool :=
  if String.prefix p s then true
  else match s with
       | EmptyString => false
       | String _ r => includesStr p r
       end.

(* ------------------------------------------------------------------ *)
(** ** JavaScript numbers *)
(* ------------------------------------------------------------------ *)

Local Open Scope float_scope.

(** The Number nearest to an integer (round to nearest, ties to even). *)
Definition of_Z (z : Z) : float :=
  SF2Prim (binary_normalize prec emax z 0 false).

(** [Math.round(x)]: [x] itself when it is not finite or already integral,
    else the nearest integer, a tie going towards +infinity; a result of
    zero keeps the sign of [x]. *)
Definition Math_round (x : float) : float :=
  match Prim2SF x with
  | S754_finite s m e =>
      match e with
      | Zneg k =>
          let d := Z.pow_pos 2 k in
          let v := if s then Z.opp (Zpos m) else Zpos m in
          let n := Z.div (2 * v + d) (2 * d) in
          if Z.eqb n 0 then (if s then -0 else 0) else of_Z n
      | _ => x
      end
  | _ => x
  end.

Definition hexDigit (c : ascii) : option Z :=
  let n := Z.of_N (N_of_ascii c) in
  if ((48 <=? n) && (n <=? 57))%Z then Some (n - 48)%Z
  else if ((65 <=? n) && (n <=? 70))%Z then Some (n - 55)%Z
  else if ((97 <=? n) && (n <=? 102))%Z then Some (n - 87)%Z
  else None.

(** The longest prefix of hexadecimal digits, as an integer; [acc] is
    [None] until a digit has been read. *)
Fixpoint digits (acc : option Z) (s : string) : option Z :=
  match s with
  | EmptyString => acc
  | String c r =>
      match hexDigit c with
      | Some d =>
          digits (Some (16 * match acc with Some a => a | None => 0 end + d)%Z) r
      | None => acc
      end
  end.

(** The sign and the digits that [parseInt(s, 16)] reads: leading white
    space is skipped, then an optional sign and an optional [0x]/[0X]. *)
Definition scanInt16 (s : string) : bool * option Z :=
  let s1 := trimStart s in
  let '(neg, s2) :=
    match s1 with
    | String "-" r => (true, r)
    | String "+" r => (false, r)
    | _ => (false, s1)
    end in
  let s3 :=
    match s2 with
    | String "0" (String x r) =>
        if (Ascii.eqb x "x" || Ascii.eqb x "X")%bool then r else s2
    | _ => s2
    end in
  (neg, digits None s3).

(** [parseInt(s, 16)] *)
Definition parseInt16 (s : string) : float :=
  match scanInt16 s with
  | (_, None) => nan
  | (neg, Some z) =>
      if Z.eqb z 0 then (if neg then -0 else 0)
      else of_Z (if neg then Z.opp z else z)
  end.

End JS.

Import JS.
Open Scope string_scope.

(* ================================================================== *)
(** ** The data model *)
(* ================================================================== *)

(** [OBD_PIDS]: the request codes, mode [01] followed by the PID. *)
Module OBD_PIDS.
Definition ENGINE_RPM := "010C".
Definition VEHICLE_SPEED := "010D".
Definition COOLANT_TEMP := "0105".
Definition ENGINE_LOAD := "0104".
Definition THROTTLE_POSITION := "0111".
Definition FUEL_LEVEL := "012F".
Definition FUEL_PRESSURE := "010A".
Definition FUEL_RATE := "015E".
Definition FUEL_TYPE := "0151".
Definition INTAKE_AIR_TEMP := "010F".
Definition INTAKE_MANIFOLD_PRESSURE := "010B".
Definition MAF_RATE := "0110".
Definition BAROMETRIC_PRESSURE := "0133".
Definition TIMING_ADVANCE := "010E".
Definition ABSOLUTE_LOAD := "0143".
Definition ENGINE_OIL_TEMP := "015C".
Definition AMBIENT_AIR_TEMP := "0146".
Definition DRIVER_DEMAND_TORQUE := "0161".
Definition ACTUAL_TORQUE := "0162".
Definition REFERENCE_TORQUE := "0163".
Definition ACCELERATOR_POS_D := "0149".
Definition ACCELERATOR_POS_E := "014A".
Definition COMMANDED_EGR := "012C".
Definition EGR_ERROR := "012D".
Definition BATTERY_VOLTAGE := "0142".
Definition RUN_TIME := "011F".
Definition DISTANCE_WITH_MIL := "0121".
Definition DISTANCE_SINCE_CLEAR := "0131".

Definition all : list string :=
    [ENGINE_RPM; VEHICLE_SPEED; COOLANT_TEMP; ENGINE_LOAD; THROTTLE_POSITION;
     FUEL_LEVEL; FUEL_PRESSURE; FUEL_RATE; FUEL_TYPE; INTAKE_AIR_TEMP;
     INTAKE_MANIFOLD_PRESSURE; MAF_RATE; BAROMETRIC_PRESSURE; TIMING_ADVANCE;
     ABSOLUTE_LOAD; ENGINE_OIL_TEMP; AMBIENT_AIR_TEMP; DRIVER_DEMAND_TORQUE;
     ACTUAL_TORQUE; REFERENCE_TORQUE; ACCELERATOR_POS_D; ACCELERATOR_POS_E;
     COMMANDED_EGR; EGR_ERROR; BATTERY_VOLTAGE; RUN_TIME; DISTANCE_WITH_MIL;
     DISTANCE_SINCE_CLEAR].
End OBD_PIDS.

(** [interface OBDData] *)
Record OBDData : Type := mkOBDData {
  rpm : float;
  speed : float;
  coolantTemp : float;
  engineLoad : float;
  throttlePosition : float;
  fuelLevel : float;
  fuelRate : float;
  fuelPressure : float;
  intakeAirTemp : float;
  boostPressure : float;
  mafRate : float;
  barometricPressure : float;
  oilTemp : float;
  ambientTemp : float;
  actualTorque : float;
  referenceTorque : float;
  acceleratorPosition : float;
  egrCommanded : float;
  egrError : float;
  batteryVoltage : float;
  runTime : float;
  isConnected : bool;
  deviceName : string
}.

Definition INITIAL_OBD_DATA : OBDData :=
  Eval cbv in
  let z := 0%float in
  {| rpm := z; speed := z; coolantTemp := z; engineLoad := z;
     throttlePosition := z; fuelLevel := z; fuelRate := z; fuelPressure := z;
     intakeAirTemp := z; boostPressure := z; mafRate := z;
     barometricPressure := z; oilTemp := z; ambientTemp := z;
     actualTorque := z; referenceTorque := z; acceleratorPosition := z;
     egrCommanded := z; egrError := z; batteryVoltage := z; runTime := z;
     isConnected := false; deviceName := EmptyString |}.

(** The numeric properties of an [OBDData], to name the target of an
    assignment [this.data.f = v]. *)
Inductive field : Type :=
  | F_rpm | F_speed | F_coolantTemp | F_engineLoad | F_throttlePosition
  | F_fuelLevel | F_fuelRate | F_fuelPressure | F_intakeAirTemp
  | F_boostPressure | F_mafRate | F_barometricPressure | F_oilTemp
  | F_ambientTemp | F_actualTorque | F_referenceTorque
  | F_acceleratorPosition | F_egrCommanded | F_egrError | F_batteryVoltage
  | F_runTime.

Definition all_fields : list field :=
  [F_rpm; F_speed; F_coolantTemp; F_engineLoad; F_throttlePosition;
   F_fuelLevel; F_fuelRate; F_fuelPressure; F_intakeAirTemp; F_boostPressure;
   F_mafRate; F_barometricPressure; F_oilTemp; F_ambientTemp; F_actualTorque;
   F_referenceTorque; F_acceleratorPosition; F_egrCommanded; F_egrError;
   F_batteryVoltage; F_runTime].

Definition field_eqb (f g : field) : bool :=
  match f, g with
  | F_rpm, F_rpm | F_speed, F_speed | F_coolantTemp, F_coolantTemp
  | F_engineLoad, F_engineLoad | F_throttlePosition, F_throttlePosition
  | F_fuelLevel, F_fuelLevel | F_fuelRate, F_fuelRate
  | F_fuelPressure, F_fuelPressure | F_intakeAirTemp, F_intakeAirTemp
  | F_boostPressure, F_boostPressure | F_mafRate, F_mafRate
  | F_barometricPressure, F_barometricPressure | F_oilTemp, F_oilTemp
  | F_ambientTemp, F_ambientTemp | F_actualTorque, F_actualTorque
  | F_referenceTorque, F_referenceTorque
  | F_acceleratorPosition, F_acceleratorPosition
  | F_egrCommanded, F_egrCommanded | F_egrError, F_egrError
  | F_batteryVoltage, F_batteryVoltage | F_runTime, F_runTime => true
  | _, _ => false
  end.

(** [d.f] *)
Definition get (f : field) (d : OBDData) : float :=
  match f with
  | F_rpm => rpm d | F_speed => speed d | F_coolantTemp => coolantTemp d
  | F_engineLoad => engineLoad d | F_throttlePosition => throttlePosition d
  | F_fuelLevel => fuelLevel d | F_fuelRate => fuelRate d
  | F_fuelPressure => fuelPressure d | F_intakeAirTemp => intakeAirTemp d
  | F_boostPressure => boostPressure d | F_mafRate => mafRate d
  | F_barometricPressure => barometricPressure d | F_oilTemp => oilTemp d
  | F_ambientTemp => ambientTemp d | F_actualTorque => actualTorque d
  | F_referenceTorque => referenceTorque d
  | F_acceleratorPosition => acceleratorPosition d
  | F_egrCommanded => egrCommanded d | F_egrError => egrError d
  | F_batteryVoltage => batteryVoltage d | F_runTime => runTime d
  end.

(** [d.f = v] *)
Definition set (f : field) (v : float) (d : OBDData) : OBDData :=
  let 'mkOBDData a1 a2 a3 a4 a5 a6 a7 a8 a9 a10 a11 a12 a13 a14 a15 a16 a17
                 a18 a19 a20 a21 c n := d in
  match f with
  | F_rpm => mkOBDData v a2 a3 a4 a5 a6 a7 a8 a9 a10 a11 a12 a13 a14 a15 a16 a17 a18 a19 a20 a21 c n
  | F_speed => mkOBDData a1 v a3 a4 a5 a6 a7 a8 a9 a10 a11 a12 a13 a14 a15 a16 a17 a18 a19 a20 a21 c n
  | F_coolantTemp => mkOBDData a1 a2 v a4 a5 a6 a7 a8 a9 a10 a11 a12 a13 a14 a15 a16 a17 a18 a19 a20 a21 c n
  | F_engineLoad => mkOBDData a1 a2 a3 v a5 a6 a7 a8 a9 a10 a11 a12 a13 a14 a15 a16 a17 a18 a19 a20 a21 c n
  | F_throttlePosition => mkOBDData a1 a2 a3 a4 v a6 a7 a8 a9 a10 a11 a12 a13 a14 a15 a16 a17 a18 a19 a20 a21 c n
  | F_fuelLevel => mkOBDData a1 a2 a3 a4 a5 v a7 a8 a9 a10 a11 a12 a13 a14 a15 a16 a17 a18 a19 a20 a21 c n
  | F_fuelRate => mkOBDData a1 a2 a3 a4 a5 a6 v a8 a9 a10 a11 a12 a13 a14 a15 a16 a17 a18 a19 a20 a21 c n
  | F_fuelPressure => mkOBDData a1 a2 a3 a4 a5 a6 a7 v a9 a10 a11 a12 a13 a14 a15 a16 a17 a18 a19 a20 a21 c n
  | F_intakeAirTemp => mkOBDData a1 a2 a3 a4 a5 a6 a7 a8 v a10 a11 a12 a13 a14 a15 a16 a17 a18 a19 a20 a21 c n
  | F_boostPressure => mkOBDData a1 a2 a3 a4 a5 a6 a7 a8 a9 v a11 a12 a13 a14 a15 a16 a17 a18 a19 a20 a21 c n
  | F_mafRate => mkOBDData a1 a2 a3 a4 a5 a6 a7 a8 a9 a10 v a12 a13 a14 a15 a16 a17 a18 a19 a20 a21 c n
  | F_barometricPressure => mkOBDData a1 a2 a3 a4 a5 a6 a7 a8 a9 a10 a11 v a13 a14 a15 a16 a17 a18 a19 a20 a21 c n
  | F_oilTemp => mkOBDData a1 a2 a3 a4 a5 a6 a7 a8 a9 a10 a11 a12 v a14 a15 a16 a17 a18 a19 a20 a21 c n
  | F_ambientTemp => mkOBDData a1 a2 a3 a4 a5 a6 a7 a8 a9 a10 a11 a12 a13 v a15 a16 a17 a18 a19 a20 a21 c n
  | F_actualTorque => mkOBDData a1 a2 a3 a4 a5 a6 a7 a8 a9 a10 a11 a12 a13 a14 v a16 a17 a18 a19 a20 a21 c n
  | F_referenceTorque => mkOBDData a1 a2 a3 a4 a5 a6 a7 a8 a9 a10 a11 a12 a13 a14 a15 v a17 a18 a19 a20 a21 c n
  | F_acceleratorPosition => mkOBDData a1 a2 a3 a4 a5 a6 a7 a8 a9 a10 a11 a12 a13 a14 a15 a16 v a18 a19 a20 a21 c n
  | F_egrCommanded => mkOBDData a1 a2 a3 a4 a5 a6 a7 a8 a9 a10 a11 a12 a13 a14 a15 a16 a17 v a19 a20 a21 c n
  | F_egrError => mkOBDData a1 a2 a3 a4 a5 a6 a7 a8 a9 a10 a11 a12 a13 a14 a15 a16 a17 a18 v a20 a21 c n
  | F_batteryVoltage => mkOBDData a1 a2 a3 a4 a5 a6 a7 a8 a9 a10 a11 a12 a13 a14 a15 a16 a17 a18 a19 v a21 c n
  | F_runTime => mkOBDData a1 a2 a3 a4 a5 a6 a7 a8 a9 a10 a11 a12 a13 a14 a15 a16 a17 a18 a19 a20 v c n
  end.

(** [d.isConnected = b; d.deviceName = n] *)
Definition set_status (b : bool) (n : string) (d : OBDData) : OBDData :=
  let 'mkOBDData a1 a2 a3 a4 a5 a6 a7 a8 a9 a10 a11 a12 a13 a14 a15 a16 a17
                 a18 a19 a20 a21 _ _ := d in
  mkOBDData a1 a2 a3 a4 a5 a6 a7 a8 a9 a10 a11 a12 a13 a14 a15 a16 a17 a18
            a19 a20 a21 b n.

(* ------------------------------------------------------------------ *)
(** ** The transport: [Device] and [Characteristic] of the BLE library *)
(* ------------------------------------------------------------------ *)

(** What a rejected promise carries. *)
Definition error : Type := string.

(** A GATT characteristic.  [writeWithResponse payload] is [None] when the
    write resolves and [Some e] when it rejects with [e]; the payload is
    given before its base64 encoding. *)
Record Characteristic : Type := mkCharacteristic {
  uuid : string;
  isWritableWithResponse : bool;
  isWritableWithoutResponse : bool;
  isNotifiable : bool;
  writeWithResponse : string -> option error
}.

(** A peripheral: each awaited call either resolves or rejects.
    [services] lists, per service, the result of [characteristics()]. *)
Record Device : Type := mkDevice {
  name : option string;
  connect : option error;
  discoverAllServicesAndCharacteristics : option error;
  services : error + list (error + list Characteristic);
  cancelConnection : option error
}.

(* ------------------------------------------------------------------ *)
(** ** The service *)
(* ------------------------------------------------------------------ *)

Definition loc : Type := nat.      (* an [OBDData] object *)
Definition aloc : Type := nat.     (* a listeners array *)
Definition listener : Type := nat. (* a listener function, by identity *)
Definition timer : Type := nat.    (* a [setInterval] handle *)

(** The closure of the polling callback of [startPolling]: the two queues
    and the three counters.  An index is [None] when it is [NaN] (the
    remainder by the length of an empty queue). *)
Record Poller : Type := mkPoller {
  priorityPids : list string;
  secondaryPids : list string;
  priorityIndex : option nat;
  secondaryIndex : option nat;
  cycleCount : nat
}.

(** What the service does to the outside, in order. *)
Inductive event : Type :=
  | Delivered (l : listener) (o : loc)   (* [l(o)] was called *)
  | Wrote (payload : string)             (* a write that resolved *)
  | WriteRejected (payload : string) (e : error)
  | Delay (ms : nat)
  | Connected (n : option string)        (* [device.connect()] resolved *)
  | Monitored (u : string)               (* [char.monitor(...)] *)
  | Cancelled                            (* [cancelConnection()] resolved *)
  | Logged (e : error).                  (* [console.error] *)

Record OBDService : Type := mkOBDService {
  device : option Device;
  writeCharacteristic : option Characteristic;
  data : loc;
  listeners : aloc;
  pollingInterval : option timer;
  responseBuffer : string;
  (* the store and the runtime *)
  objects : list OBDData;
  arrays : list (list listener);
  timers : list (timer * Poller);
  nextTimer : timer;
  trace : list event
}.

(** [new OBDService()]: one snapshot object, one empty listeners array. *)
Definition new_OBDService : OBDService :=
  {| device := None; writeCharacteristic := None; data := 0; listeners := 0;
     pollingInterval := None; responseBuffer := EmptyString;
     objects := [INITIAL_OBD_DATA]; arrays := [[]]; timers := [];
     nextTimer := 1; trace := [] |}.

(** The result of an [async] method. *)
Inductive outcome : Type :=
  | Ok (st : OBDService)
  | Throw (e : error) (st : OBDService).

Definition state_of (r : outcome) : OBDService :=
  match r with Ok st => st | Throw _ st => st end.

Definition throws (r : outcome) : bool :=
  match r with Ok _ => false | Throw _ _ => true end.

(** [await m; k] *)
Definition bind (r : outcome) (k : OBDService -> outcome) : outcome :=
  match r with Ok st => k st | Throw e st => Throw e st end.

Notation "r >>= k" := (bind r k) (at level 50, left associativity).

(** Assignments to the members of the service. *)
Definition set_device (v : option Device) (st : OBDService) : OBDService :=
  mkOBDService v (writeCharacteristic st) (data st) (listeners st)
    (pollingInterval st) (responseBuffer st) (objects st) (arrays st)
    (timers st) (nextTimer st) (trace st).

Definition set_writeCharacteristic (v : option Characteristic)
    (st : OBDService) : OBDService :=
  mkOBDService (device st) v (data st) (listeners st) (pollingInterval st)
    (responseBuffer st) (objects st) (arrays st) (timers st) (nextTimer st)
    (trace st).

Definition set_data (v : loc) (st : OBDService) : OBDService :=
  mkOBDService (device st) (writeCharacteristic st) v (listeners st)
    (pollingInterval st) (responseBuffer st) (objects st) (arrays st)
    (timers st) (nextTimer st) (trace st).

Definition set_listeners (v : aloc) (st : OBDService) : OBDService :=
  mkOBDService (device st) (writeCharacteristic st) (data st) v
    (pollingInterval st) (responseBuffer st) (objects st) (arrays st)
    (timers st) (nextTimer st) (trace st).

Definition set_pollingInterval (v : option timer) (st : OBDService)
    : OBDService :=
  mkOBDService (device st) (writeCharacteristic st) (data st) (listeners st)
    v (responseBuffer st) (objects st) (arrays st) (timers st) (nextTimer st)
    (trace st).

Definition set_responseBuffer (v : string) (st : OBDService) : OBDService :=
  mkOBDService (device st) (writeCharacteristic st) (data st) (listeners st)
    (pollingInterval st) v (objects st) (arrays st) (timers st)
    (nextTimer st) (trace st).

Definition set_objects (v : list OBDData) (st : OBDService) : OBDService :=
  mkOBDService (device st) (writeCharacteristic st) (data st) (listeners st)
    (pollingInterval st) (responseBuffer st) v (arrays st) (timers st)
    (nextTimer st) (trace st).

Definition set_arrays (v : list (list listener)) (st : OBDService)
    : OBDService :=
  mkOBDService (device st) (writeCharacteristic st) (data st) (listeners st)
    (pollingInterval st) (responseBuffer st) (objects st) v (timers st)
    (nextTimer st) (trace st).

Definition set_timers (v : list (timer * Poller)) (n : timer)
    (st : OBDService) : OBDService :=
  mkOBDService (device st) (writeCharacteristic st) (data st) (listeners st)
    (pollingInterval st) (responseBuffer st) (objects st) (arrays st) v n
    (trace st).

Definition log (e : event) (st : OBDService) : OBDService :=
  mkOBDService (device st) (writeCharacteristic st) (data st) (listeners st)
    (pollingInterval st) (responseBuffer st) (objects st) (arrays st)
    (timers st) (nextTimer st) (trace st ++ [e]).

(** In-place update of the element at an index; nothing out of range. *)
Fixpoint update {A : Type} (n : nat) (f : A -> A) (l : list A) : list A :=
  match l, n with
  | [], _ => []
  | x :: r, O => f x :: r
  | x :: r, S k => x :: update k f r
  end.

(** The object at a location. *)
Definition object_at (o : loc) (st : OBDService) : OBDData :=
  nth o (objects st) INITIAL_OBD_DATA.

(** [this.data], dereferenced: the live snapshot. *)
Definition snapshot (st : OBDService) : OBDData := object_at (data st) st.

(** [this.data.... = ...]: mutation of the live snapshot in place. *)
Definition mutate (f : OBDData -> OBDData) (st : OBDService) : OBDService :=
  set_objects (update (data st) f (objects st)) st.

(** [{ ...d }]: a new object with the properties of [d]. *)
Definition spread (d : OBDData) (st : OBDService) : loc * OBDService :=
  (List.length (objects st), set_objects (objects st ++ [d]) st).

(** The array [this.listeners] refers to. *)
Definition array_at (a : aloc) (st : OBDService) : list listener :=
  nth a (arrays st) [].

(* ------------------------------------------------------------------ *)
(** ** Subscription and publication *)
(* ------------------------------------------------------------------ *)

Section Service.

(** What a listener does when it is called with a snapshot: the listeners
    whose unsubscribe handle it invokes (its own, for one that unsubscribes
    itself).  A listener does not throw and does not subscribe. *)
Variable callback : listener -> OBDData -> list listener.

(** The closure returned by [subscribe]:
    [this.listeners = this.listeners.filter(l => l !== listener)];
    [filter] builds a new array and leaves the old one as it is. *)
Definition unsubscribe (l : listener) (st : OBDService) : OBDService :=
  let kept := filter (fun x => negb (Nat.eqb x l)) (array_at (listeners st) st) in
  set_listeners (List.length (arrays st)) (set_arrays (arrays st ++ [kept]) st).

(** The call [l(o)]. *)
Definition call (l : listener) (o : loc) (st : OBDService) : OBDService :=
  let st1 := log (Delivered l o) st in
  fold_left (fun s u => unsubscribe u s) (callback l (object_at o st1)) st1.

(** One round of [forEach] in [notifyListeners]: the element at index [i]
    of the array [a], if it is there, is called with [{ ...this.data }]. *)
Definition notify_step (a : aloc) (s : OBDService) (i : nat) : OBDService :=
  match nth_error (array_at a s) i with
  | Some l => let '(o, s1) := spread (snapshot s) s in call l o s1
  | None => s
  end.

(** [this.listeners.forEach(listener => listener({ ...this.data }))]: the
    array is the one [this.listeners] names when the loop starts, its
    length is read once and each element when its turn comes. *)
Definition notifyListeners (st : OBDService) : OBDService :=
  let a := listeners st in
  fold_left (notify_step a) (seq 0 (List.length (array_at a st))) st.

(** [subscribe(listener)]: [push] extends the array in place, the listener
    is called with [this.data] itself; the result is the unsubscribe
    closure. *)
Definition subscribe (l : listener) (st : OBDService)
    : (OBDService -> OBDService) * OBDService :=
  let st1 := set_arrays (update (listeners st) (fun a => (a ++ [l])%list) (arrays st)) st in
  (unsubscribe l, call l (data st1) st1).

(** [getData()] *)
Definition getData (st : OBDService) : loc * OBDService :=
  spread (snapshot st) st.

(** [isConnected()] *)
Definition isConnected_ (st : OBDService) : bool := isConnected (snapshot st).

(* ------------------------------------------------------------------ *)
(** ** The PID decoder *)
(* ------------------------------------------------------------------ *)

Local Open Scope float_scope.

Definition parsePercent (hex : string) : float :=
  Math_round (parseInt16 hex * 100 / 255).

Definition parseTemp (hex : string) : float := parseInt16 hex - 40.

Definition parseTwoBytes (hex : string) : float :=
  let A := parseInt16 (substring 0 2 hex) in
  let B := parseInt16 (substring 2 4 hex) in
  256 * A + B.

(** The [switch (pid)] of [parseOBDResponse], on the live snapshot. *)
Definition switch_pid (pid dataBytes : string) (d : OBDData) : OBDData :=
  let len := String.length dataBytes in
  let byte0 := substring 0 2 dataBytes in
  if String.eqb pid "0C" then
    if (4 <=? len)%nat then set F_rpm (Math_round (parseTwoBytes dataBytes / 4)) d else d
  else if String.eqb pid "0D" then
    if (2 <=? len)%nat then set F_speed (parseInt16 byte0) d else d
  else if String.eqb pid "05" then
    if (2 <=? len)%nat then set F_coolantTemp (parseTemp byte0) d else d
  else if String.eqb pid "04" then
    if (2 <=? len)%nat then set F_engineLoad (parsePercent byte0) d else d
  else if String.eqb pid "11" then
    if (2 <=? len)%nat then set F_throttlePosition (parsePercent byte0) d else d
  else if String.eqb pid "2F" then
    if (2 <=? len)%nat then set F_fuelLevel (parsePercent byte0) d else d
  else if String.eqb pid "5E" then
    if (4 <=? len)%nat
    then set F_fuelRate (Math_round (parseTwoBytes dataBytes / 20 * 10) / 10) d
    else d
  else if String.eqb pid "0A" then
    if (2 <=? len)%nat then set F_fuelPressure (parseInt16 byte0 * 3) d else d
  else if String.eqb pid "0B" then
    if (2 <=? len)%nat then set F_boostPressure (parseInt16 byte0) d else d
  else if String.eqb pid "10" then
    if (4 <=? len)%nat
    then set F_mafRate (Math_round (parseTwoBytes dataBytes / 100 * 10) / 10) d
    else d
  else if String.eqb pid "0F" then
    if (2 <=? len)%nat then set F_intakeAirTemp (parseTemp byte0) d else d
  else if String.eqb pid "33" then
    if (2 <=? len)%nat then set F_barometricPressure (parseInt16 byte0) d else d
  else if String.eqb pid "5C" then
    if (2 <=? len)%nat then set F_oilTemp (parseTemp byte0) d else d
  else if String.eqb pid "46" then
    if (2 <=? len)%nat then set F_ambientTemp (parseTemp byte0) d else d
  else if String.eqb pid "62" then
    if (2 <=? len)%nat then set F_actualTorque (parseInt16 byte0 - 125) d else d
  else if String.eqb pid "63" then
    if (4 <=? len)%nat then set F_referenceTorque (parseTwoBytes dataBytes) d else d
  else if String.eqb pid "49" then
    if (2 <=? len)%nat then set F_acceleratorPosition (parsePercent byte0) d else d
  else if String.eqb pid "2C" then
    if (2 <=? len)%nat then set F_egrCommanded (parsePercent byte0) d else d
  else if String.eqb pid "2D" then
    if (2 <=? len)%nat
    then set F_egrError (Math_round ((parseInt16 byte0 - 128) * 100 / 128)) d
    else d
  else if String.eqb pid "42" then
    if (4 <=? len)%nat
    then set F_batteryVoltage (Math_round (parseTwoBytes dataBytes / 100) / 10) d
    else d
  else if String.eqb pid "1F" then
    if (4 <=? len)%nat then set F_runTime (parseTwoBytes dataBytes) d else d
  else d.

Local Close Scope float_scope.

(** [response.replace(/[\s\r\n]/g, '').toUpperCase()] *)
Definition clean (response : string) : string :=
  toUpperCase (removeWhitespace response).

(** [parseOBDResponse(response)] *)
Definition parseOBDResponse (response : string) (st : OBDService)
    : OBDService :=
  let c := clean response in
  if negb (startsWith "41" c) then st
  else
    let pid := substring 2 4 c in
    let dataBytes := substringFrom 4 c in
    notifyListeners (mutate (switch_pid pid dataBytes) st).

(** [handleResponse(base64Value)], from the decoded text [response] of the
    notification on. *)
Definition handleResponse (response : string) (st : OBDService)
    : OBDService :=
  let st1 := set_responseBuffer (responseBuffer st ++ response) st in
  if includes ">" (responseBuffer st1) then
    let lines := split ">" (responseBuffer st1) in
    let st2 := fold_left (fun s line => parseOBDResponse (trim line) s) lines st1 in
    set_responseBuffer EmptyString st2
  else st1.

(* ------------------------------------------------------------------ *)
(** ** Commands, initialization and connection *)
(* ------------------------------------------------------------------ *)

(** [sendCommand(command)]: nothing without a write characteristic, else
    one write of the command and a carriage return. *)
Definition sendCommand (command : string) (st : OBDService) : outcome :=
  match writeCharacteristic st with
  | None => Ok st
  | Some ch =>
      let payload := command ++ String (ascii_of_nat 13) EmptyString in
      match writeWithResponse ch payload with
      | None => Ok (log (Wrote payload) st)
      | Some e => Throw e (log (WriteRejected payload e) st)
      end
  end.

(** [delay(ms)] *)
Definition delay (ms : nat) (st : OBDService) : outcome :=
  Ok (log (Delay ms) st).

(** [initializeAdapter()] *)
Definition initializeAdapter (st : OBDService) : outcome :=
  sendCommand "ATZ" st >>= delay 1000 >>= sendCommand "ATE0"
    >>= sendCommand "ATL0" >>= sendCommand "ATS0" >>= sendCommand "ATH0"
    >>= sendCommand "ATSP0".

(** [arr[i]] in [sendCommand(arr[i])]: [undefined], which the
    concatenation with the carriage return prints, when [i] is [NaN] or
    out of range. *)
Definition element (arr : list string) (i : option nat) : string :=
  match i with
  | Some n => nth n arr "undefined"
  | None => "undefined"
  end.

(** [(i + 1) % len] *)
Definition advance (i : option nat) (len : nat) : option nat :=
  match i, len with
  | Some n, S _ => Some ((n + 1) mod len)
  | _, _ => None
  end.

(** [startPolling()], for given queues: a new interval timer whose closure
    starts with both indices and the cycle count at zero.  The handle of an
    earlier timer is overwritten, the timer itself keeps running. *)
Definition startPollingWith (prio sec : list string) (st : OBDService)
    : OBDService :=
  let id := nextTimer st in
  let p := mkPoller prio sec (Some 0) (Some 0) 0 in
  set_pollingInterval (Some id)
    (set_timers (timers st ++ [(id, p)]) (S id) st).

Definition PRIORITY_PIDS : list string :=
  [OBD_PIDS.ENGINE_RPM; OBD_PIDS.VEHICLE_SPEED;
   OBD_PIDS.INTAKE_MANIFOLD_PRESSURE; OBD_PIDS.THROTTLE_POSITION].

Definition SECONDARY_PIDS : list string :=
  [OBD_PIDS.COOLANT_TEMP; OBD_PIDS.ENGINE_OIL_TEMP; OBD_PIDS.FUEL_RATE;
   OBD_PIDS.FUEL_LEVEL; OBD_PIDS.INTAKE_AIR_TEMP; OBD_PIDS.AMBIENT_AIR_TEMP;
   OBD_PIDS.ACTUAL_TORQUE; OBD_PIDS.COMMANDED_EGR; OBD_PIDS.BATTERY_VOLTAGE].

Definition startPolling (st : OBDService) : OBDService :=
  startPollingWith PRIORITY_PIDS SECONDARY_PIDS st.

Fixpoint find_timer (id : timer) (ts : list (timer * Poller))
    : option Poller :=
  match ts with
  | [] => None
  | (i, p) :: r => if Nat.eqb i id then Some p else find_timer id r
  end.

Fixpoint store_timer (id : timer) (p : Poller) (ts : list (timer * Poller))
    : list (timer * Poller) :=
  match ts with
  | [] => []
  | (i, q) :: r =>
      if Nat.eqb i id then (i, p) :: r else (i, q) :: store_timer id p r
  end.

(** The interval callback of timer [id] from its firing to its end, when
    nothing else happens in between: its write settles before any other
    callback fires.  [fire] and [settle] below give the two halves. *)
Definition tick (id : timer) (st : OBDService) : outcome :=
  match find_timer id (timers st) with
  | None => Ok st
  | Some p =>
      if isConnected (snapshot st) then
        if ((cycleCount p mod 5 =? 4) && (0 <? List.length (secondaryPids p)))%nat
        then
          sendCommand (element (secondaryPids p) (secondaryIndex p)) st
          >>= fun s =>
            let p' := mkPoller (priorityPids p) (secondaryPids p)
                        (priorityIndex p)
                        (advance (secondaryIndex p) (List.length (secondaryPids p)))
                        (S (cycleCount p)) in
            Ok (set_timers (store_timer id p' (timers s)) (nextTimer s) s)
        else
          sendCommand (element (priorityPids p) (priorityIndex p)) st
          >>= fun s =>
            let p' := mkPoller (priorityPids p) (secondaryPids p)
                        (advance (priorityIndex p) (List.length (priorityPids p)))
                        (secondaryIndex p)
                        (S (cycleCount p)) in
            Ok (set_timers (store_timer id p' (timers s)) (nextTimer s) s)
      else Ok st
  end.

(** A polling callback that has issued its write and waits at its
    [await]: its timer, the branch it took and how its write settles. *)
Record Pending : Type := mkPending {
  p_timer : timer;
  p_secondary : bool;
  p_result : option error
}.

(** The event loop of polling: the service and the callbacks that wait
    for their write, the oldest first.  [setInterval] does not wait for a
    callback to end before it fires the next. *)
Definition Loop : Type := (OBDService * list Pending)%type.

(** The interval callback of timer [id] fires and runs up to its [await]:
    the command is chosen from the counters as they are and its write is
    issued (the event of the write is logged here, with the way it will
    settle); the counters are not touched. *)
Definition fire (id : timer) (w : Loop) : Loop :=
  let '(st, q) := w in
  match find_timer id (timers st) with
  | None => w
  | Some p =>
      if isConnected (snapshot st) then
        let sec :=
          ((cycleCount p mod 5 =? 4) && (0 <? List.length (secondaryPids p)))%nat in
        let cmd :=
          if sec then element (secondaryPids p) (secondaryIndex p)
          else element (priorityPids p) (priorityIndex p) in
        match sendCommand cmd st with
        | Ok s => (s, (q ++ [mkPending id sec None])%list)
        | Throw e s => (s, (q ++ [mkPending id sec (Some e)])%list)
        end
      else w
  end.

(** The write of the oldest waiting callback settles and the callback
    resumes: after a write that resolved, the index of its branch advances
    from the value it has at that moment and the cycle count goes up by
    one; after a write that rejected, the callback ends there. *)
Definition settle (w : Loop) : Loop :=
  let '(st, q) := w in
  match q with
  | [] => w
  | pd :: q' =>
      match p_result pd, find_timer (p_timer pd) (timers st) with
      | None, Some p =>
          let p' :=
            if p_secondary pd
            then mkPoller (priorityPids p) (secondaryPids p) (priorityIndex p)
                   (advance (secondaryIndex p) (List.length (secondaryPids p)))
                   (S (cycleCount p))
            else mkPoller (priorityPids p) (secondaryPids p)
                   (advance (priorityIndex p) (List.length (priorityPids p)))
                   (secondaryIndex p) (S (cycleCount p)) in
          (set_timers (store_timer (p_timer pd) p' (timers st)) (nextTimer st) st,
           q')
      | _, _ => (st, q')
      end
  end.

(** What happens in the event loop of polling, in order. *)
Inductive step : Type :=
  | Fire (id : timer)
  | Settle.

Definition do_step (w : Loop) (s : step) : Loop :=
  match s with
  | Fire id => fire id w
  | Settle => settle w
  end.

Definition run (steps : list step) (w : Loop) : Loop :=
  fold_left do_step steps w.

(** [stopPolling()] *)
Definition stopPolling (st : OBDService) : OBDService :=
  match pollingInterval st with
  | Some id =>
      set_pollingInterval None
        (set_timers (filter (fun t => negb (Nat.eqb (fst t) id)) (timers st))
           (nextTimer st) st)
  | None => st
  end.

(** The inner loop of [connectToDevice], over the characteristics of one
    service. *)
Definition visit_characteristics (chars : list Characteristic)
    (st : OBDService) : OBDService :=
  fold_left
    (fun s ch =>
       let s1 :=
         if (isWritableWithResponse ch || isWritableWithoutResponse ch)%bool
         then set_writeCharacteristic (Some ch) s else s in
       if isNotifiable ch then log (Monitored (uuid ch)) s1 else s1)
    chars st.

(** The outer loop of [connectToDevice], over the services. *)
Fixpoint visit_services (svcs : list (error + list Characteristic))
    (st : OBDService) : outcome :=
  match svcs with
  | [] => Ok st
  | inl e :: _ => Throw e st
  | inr chars :: r => visit_services r (visit_characteristics chars st)
  end.

(** [name ?? 'Unknown Device'] *)
Definition display_name (n : option string) : string :=
  match n with Some s => s | None => "Unknown Device" end.

(** The [try] block of [connectToDevice]. *)
Definition connect_body (dev : Device) (st : OBDService) : outcome :=
  match connect dev with
  | Some e => Throw e st
  | None =>
      let st1 := set_device (Some dev) (log (Connected (name dev)) st) in
      match discoverAllServicesAndCharacteristics dev with
      | Some e => Throw e st1
      | None =>
          match services dev with
          | inl e => Throw e st1
          | inr svcs =>
              visit_services svcs st1 >>= initializeAdapter >>= fun s =>
                let s1 := mutate (set_status true (display_name (name dev))) s in
                Ok (startPolling (notifyListeners s1))
          end
      end
  end.

(** [connectToDevice(device)]: the error is logged and thrown again. *)
Definition connectToDevice (dev : Device) (st : OBDService) : outcome :=
  match connect_body dev st with
  | Ok s => Ok s
  | Throw e s => Throw e (log (Logged e) s)
  end.

(** [disconnect()] *)
Definition disconnect (st : OBDService) : outcome :=
  let st1 := stopPolling st in
  (match device st1 with
   | Some d =>
       match cancelConnection d with
       | Some e => Throw e st1
       | None => Ok (set_device None (log Cancelled st1))
       end
   | None => Ok st1
   end) >>= fun s =>
    let s1 := set_writeCharacteristic None s in
    let '(o, s2) := spread INITIAL_OBD_DATA s1 in
    Ok (notifyListeners (set_data o s2)).

(** The test of the scan callback of [scanForDevices]: a device is
    reported when its name, in upper case, contains one of the adapter
    names. *)
Definition isAdapterName (n : string) : bool :=
  let u := toUpperCase n in
  (includesStr "OBD" u || includesStr "ELM" u || includesStr "VGATE" u
   || includesStr "VEEPEAK" u || includesStr "BAFX" u)%bool.

End Service.

Open Scope list_scope.

(* ================================================================== *)
(** ** Vocabulary of the statements *)
(* ================================================================== *)

(** The listeners subscribed at the moment. *)
Definition subscribed (st : OBDService) : list listener :=
  array_at (listeners st) st.

(** The members that publication never touches. *)
Definition core (st : OBDService) :=
  (device st, writeCharacteristic st, data st, pollingInterval st,
   responseBuffer st, timers st, nextTimer st).

(** The references of the service point into the store. *)
Definition wf (st : OBDService) : Prop :=
  data st < List.length (objects st) /\
  listeners st < List.length (arrays st).

(** The snapshots that one publication hands out: one new object per
    listener, allocated in order from the end of the store. *)
Fixpoint deliveries (ls : list listener) (o : loc) : list event :=
  match ls with
  | [] => []
  | l :: r => Delivered l o :: deliveries r (S o)
  end.

(** The table that the [switch] of the decoder implements, read off its
    cases: the field a PID is decoded into and the least number of payload
    characters its guard asks for. *)
Definition pid_field (pid : string) : option (field * nat) :=
  if String.eqb pid "0C" then Some (F_rpm, 4)
  else if String.eqb pid "0D" then Some (F_speed, 2)
  else if String.eqb pid "05" then Some (F_coolantTemp, 2)
  else if String.eqb pid "04" then Some (F_engineLoad, 2)
  else if String.eqb pid "11" then Some (F_throttlePosition, 2)
  else if String.eqb pid "2F" then Some (F_fuelLevel, 2)
  else if String.eqb pid "5E" then Some (F_fuelRate, 4)
  else if String.eqb pid "0A" then Some (F_fuelPressure, 2)
  else if String.eqb pid "0B" then Some (F_boostPressure, 2)
  else if String.eqb pid "10" then Some (F_mafRate, 4)
  else if String.eqb pid "0F" then Some (F_intakeAirTemp, 2)
  else if String.eqb pid "33" then Some (F_barometricPressure, 2)
  else if String.eqb pid "5C" then Some (F_oilTemp, 2)
  else if String.eqb pid "46" then Some (F_ambientTemp, 2)
  else if String.eqb pid "62" then Some (F_actualTorque, 2)
  else if String.eqb pid "63" then Some (F_referenceTorque, 4)
  else if String.eqb pid "49" then Some (F_acceleratorPosition, 2)
  else if String.eqb pid "2C" then Some (F_egrCommanded, 2)
  else if String.eqb pid "2D" then Some (F_egrError, 2)
  else if String.eqb pid "42" then Some (F_batteryVoltage, 4)
  else if String.eqb pid "1F" then Some (F_runTime, 4)
  else None.

(** The field that a response is decoded into, if it is: the cleaned
    response starts with [41], its PID is one of the [switch] and its
    payload is as long as the guard of that case asks. *)
Definition decoded_field (response : string) : option field :=
  let c := clean response in
  if startsWith "41" c then
    match pid_field (substring 2 4 c) with
    | Some (f, n) =>
        if (n <=? String.length (substringFrom 4 c))%nat then Some f else None
    | None => None
    end
  else None.

(** The commands of the initialization sequence. *)
Definition INIT_COMMANDS : list string :=
  ["ATZ"; "ATE0"; "ATL0"; "ATS0"; "ATH0"; "ATSP0"].

(** Every command the service can write: an echo is one of these. *)
Definition sent_commands : list string := INIT_COMMANDS ++ OBD_PIDS.all.

(** The malformed responses: the adapter's [NODATA], the echo of a command,
    a response that does not start with [41] once cleaned, and a response
    whose cleaned payload has fewer characters than the guard of its PID
    asks for. *)
Inductive malformed (r : string) : Prop :=
  | NoData : r = "NODATA" -> malformed r
  | Echo : In r sent_commands -> malformed r
  | NoPrefix : startsWith "41" (clean r) = false -> malformed r
  | Partial (f : field) (n : nat) :
      startsWith "41" (clean r) = true ->
      pid_field (substring 2 4 (clean r)) = Some (f, n) ->
      String.length (substringFrom 4 (clean r)) < n ->
      malformed r.

(** The events a trace has gained since it was [n] long. *)
Definition since (n : nat) (st : OBDService) : list event :=
  skipn n (trace st).

(** A character that [parseInt(_, 16)] does not read as a digit. *)
Fixpoint has_non_hex (s : string) : bool :=
  match s with
  | EmptyString => false
  | String c r =>
      match hexDigit c with
      | None => true
      | Some _ => has_non_hex r
      end
  end.

(** The two upper-case hexadecimal digits of a byte, as an adapter prints
    them. *)
Definition hexChar (n : N) : ascii :=
  if (n <? 10)%N then ascii_of_N (48 + n) else ascii_of_N (55 + n).

Definition hex2 (b : byte) : string :=
  let n := Byte.to_N b in
  String (hexChar (n / 16)) (String (hexChar (n mod 16)) EmptyString).

(** The Number of a byte. *)
Definition byte_value (b : byte) : float := of_Z (Z.of_N (Byte.to_N b)).

(** A string that cleaning leaves as it is: no white space, no character
    that upper case changes. *)
Fixpoint stable (s : string) : bool :=
  match s with
  | EmptyString => true
  | String c r =>
      (negb (isWhiteSpace c)
       && String.eqb (upperChars c) (String c EmptyString)
       && stable r)%bool
  end.

(** What the decoder does with the payload of a PID: the field assigned
    and the value, from the first byte or from the first two bytes read as
    [256 * A + B]. *)
Inductive rule : Type :=
  | OneByte (f : field) (g : float -> float)
  | TwoBytes (f : field) (g : float -> float).

(** The rules of the decoder, PID by PID. *)
Definition decode_rules : list (string * rule) :=
  [("0C", TwoBytes F_rpm (fun x => Math_round (x / 4)));
   ("0D", OneByte F_speed (fun a => a));
   ("05", OneByte F_coolantTemp (fun a => a - 40));
   ("04", OneByte F_engineLoad (fun a => Math_round (a * 100 / 255)));
   ("11", OneByte F_throttlePosition (fun a => Math_round (a * 100 / 255)));
   ("2F", OneByte F_fuelLevel (fun a => Math_round (a * 100 / 255)));
   ("5E", TwoBytes F_fuelRate (fun x => Math_round (x / 20 * 10) / 10));
   ("0A", OneByte F_fuelPressure (fun a => a * 3));
   ("0B", OneByte F_boostPressure (fun a => a));
   ("10", TwoBytes F_mafRate (fun x => Math_round (x / 100 * 10) / 10));
   ("0F", OneByte F_intakeAirTemp (fun a => a - 40));
   ("33", OneByte F_barometricPressure (fun a => a));
   ("5C", OneByte F_oilTemp (fun a => a - 40));
   ("46", OneByte F_ambientTemp (fun a => a - 40));
   ("62", OneByte F_actualTorque (fun a => a - 125));
   ("63", TwoBytes F_referenceTorque (fun x => x));
   ("49", OneByte F_acceleratorPosition (fun a => Math_round (a * 100 / 255)));
   ("2C", OneByte F_egrCommanded (fun a => Math_round (a * 100 / 255)));
   ("2D", OneByte F_egrError (fun a => Math_round ((a - 128) * 100 / 128)));
   ("42", TwoBytes F_batteryVoltage (fun x => Math_round (x / 100) / 10));
   ("1F", TwoBytes F_runTime (fun x => x))]%float.

(** The response to a PID with the payload bytes [a] (and [b]). *)
Definition response_for (pid : string) (r : rule) (a b : byte) : string :=
  match r with
  | OneByte _ _ => ("41" ++ pid ++ hex2 a)%string
  | TwoBytes _ _ => ("41" ++ pid ++ hex2 a ++ hex2 b)%string
  end.

(** The snapshot that a rule makes of [d] from the bytes [a] and [b]. *)
Definition apply_rule (r : rule) (a b : byte) (d : OBDData) : OBDData :=
  match r with
  | OneByte f g => set f (g (byte_value a)) d
  | TwoBytes f g => set f (g (256 * byte_value a + byte_value b)%float) d
  end.

(** The four numeric shapes, in the words of the specification: a
    single-byte percentage, a single-byte temperature, a two-byte
    big-endian unsigned number with an optional divisor, a single-byte
    signed-offset percentage.  A shape reads a payload that has the bytes
    it needs and discards a shorter one. *)
Inductive shape : Type :=
  | Percent
  | Temperature
  | TwoByte (divisor : option float)
  | SignedPercent.

Definition shape_decode (s : shape) (payload : string) : option float :=
  let len := String.length payload in
  let A := parseInt16 (substring 0 2 payload) in
  let B := parseInt16 (substring 2 4 payload) in
  match s with
  | Percent =>
      if (2 <=? len)%nat then Some (Math_round (A * 100 / 255))%float else None
  | Temperature =>
      if (2 <=? len)%nat then Some (A - 40)%float else None
  | TwoByte None =>
      if (4 <=? len)%nat then Some (256 * A + B)%float else None
  | TwoByte (Some c) =>
      if (4 <=? len)%nat then Some ((256 * A + B) / c)%float else None
  | SignedPercent =>
      if (2 <=? len)%nat then Some ((A - 128) * 100 / 128)%float else None
  end.

(** [n] rounds of timer [id] in each of which the write settles before
    the next callback fires, as it does when a write takes less than the
    150 ms of the interval. *)
Fixpoint rounds (n : nat) (id : timer) : list step :=
  match n with
  | O => []
  | S k => Fire id :: Settle :: rounds k id
  end.

(** The commands written, in order: the payloads of the writes that
    resolved, without their carriage return. *)
Fixpoint written (evs : list event) : list string :=
  match evs with
  | [] => []
  | Wrote p :: r => take (String.length p - 1) p :: written r
  | _ :: r => written r
  end.

(** The command that a polling closure asks for next. *)
Definition next_command (p : Poller) : string :=
  if ((cycleCount p mod 5 =? 4) && (0 <? List.length (secondaryPids p)))%nat
  then element (secondaryPids p) (secondaryIndex p)
  else element (priorityPids p) (priorityIndex p).

(** The polling closure after one completed round. *)
Definition next_poller (p : Poller) : Poller :=
  if ((cycleCount p mod 5 =? 4) && (0 <? List.length (secondaryPids p)))%nat
  then mkPoller (priorityPids p) (secondaryPids p) (priorityIndex p)
         (advance (secondaryIndex p) (List.length (secondaryPids p)))
         (S (cycleCount p))
  else mkPoller (priorityPids p) (secondaryPids p)
         (advance (priorityIndex p) (List.length (priorityPids p)))
         (secondaryIndex p) (S (cycleCount p)).

(** The first [n] commands of a polling closure. *)
Fixpoint schedule (n : nat) (p : Poller) : list string :=
  match n with
  | O => []
  | S k => next_command p :: schedule k (next_poller p)
  end.

(** The timers handed out so far have handles below the next one. *)
Definition timers_fresh (st : OBDService) : Prop :=
  Forall (fun t => fst t < nextTimer st) (timers st).

(** A service that polls: connected, with a characteristic that accepts
    every write. *)
Definition polling_ready (st : OBDService) : Prop :=
  isConnected (snapshot st) = true /\
  exists ch, writeCharacteristic st = Some ch /\
             forall p, writeWithResponse ch p = None.

(** A characteristic that acknowledges every write. *)
Definition accepting : Characteristic :=
  mkCharacteristic "fff2" true false false (fun _ => None).

(** A connected service with an accepting write characteristic and no
    timer yet. *)
Definition ready_service : OBDService :=
  mutate (set_status true "ELM327")
    (set_writeCharacteristic (Some accepting) new_OBDService).

(** The carriage return that ends a command. *)
Definition CR : string := String (ascii_of_nat 13) EmptyString.

(** A characteristic that acknowledges every write and notifies. *)
Definition duplex : Characteristic :=
  mkCharacteristic "fff1" true false true (fun _ => None).

(** An adapter that connects and acknowledges every write; whether it
    ever answers is a matter of [handleResponse] being called. *)
Definition adapter : Device :=
  mkDevice (Some "OBDII") None None (inr [inr [duplex]]) None.


(** A characteristic that rejects the write of [ATS0]. *)
Definition refusing_ATS0 : Characteristic :=
  mkCharacteristic "fff2" true false false
    (fun p => if String.eqb p ("ATS0" ++ CR)%string
              then Some "Write failed" else None).

(** The text of several responses, each but the last followed by [sep]. *)
Fixpoint join (sep : ascii) (ls : list string) : string :=
  match ls with
  | [] => EmptyString
  | [x] => x
  | x :: r => (x ++ String sep (join sep r))%string
  end.

(** The chunks handled one after the other. *)
Definition handle_all (callback : listener -> OBDData -> list listener)
    (chunks : list string) (st : OBDService) : OBDService :=
  fold_left (fun s c => handleResponse callback c s) chunks st.

(** [st'] differs from [st] at most by the device, the write
    characteristic and new events at the end of the trace. *)
Definition quiet (st st' : OBDService) : Prop :=
  objects st' = objects st /\ data st' = data st /\
  listeners st' = listeners st /\ arrays st' = arrays st /\
  pollingInterval st' = pollingInterval st /\ timers st' = timers st /\
  nextTimer st' = nextTimer st /\ responseBuffer st' = responseBuffer st /\
  exists evs, trace st' = trace st ++ evs.

(** A characteristic that can be written. *)
Definition writable (ch : Characteristic) : bool :=
  (isWritableWithResponse ch || isWritableWithoutResponse ch)%bool.

(** The characteristics of all the services, in the order visited. *)
Fixpoint all_characteristics (svcs : list (error + list Characteristic))
    : list Characteristic :=
  match svcs with
  | [] => []
  | inl _ :: _ => []
  | inr cs :: r => cs ++ all_characteristics r
  end.

(** The names that the scan callback of [scanForDevices] looks for. *)
Definition ADAPTER_NAMES : list string :=
  ["OBD"; "ELM"; "VGATE"; "VEEPEAK"; "BAFX"].

(** [if (device && device.name) { ... onDeviceFound(device) }] of the scan
    callback: whether a scanned device, by its name, is reported. *)
Definition reported (name : option string) : bool :=
  match name with
  | Some n => (negb (String.eqb n EmptyString) && isAdapterName n)%bool
  | None => false
  end.

(** The integer of a byte. *)
Definition byte_Z (b : byte) : Z := Z.of_N (Byte.to_N b).

(** An entry of the list of devices of the hook [useOBD]. *)
Record DeviceEntry : Type := mkDeviceEntry {
  entry_id : string;
  entry_name : string
}.

(** The update of [availableDevices] in the scan callback of [useOBD]:
    a device whose id is in the list is dropped, a new one is added at the
    end under its name, or [Unknown Device] when the name is missing or
    empty. *)
Definition addDevice (prev : list DeviceEntry) (id : string)
    (name : option string) : list DeviceEntry :=
  if existsb (fun d => String.eqb (entry_id d) id) prev then prev
  else prev ++ [mkDeviceEntry id
                  (match name with
                   | Some n => if String.eqb n EmptyString
                               then "Unknown Device" else n
                   | None => "Unknown Device"
                   end)].

(* ------------------------------------------------------------------ *)
(** ** The compass tape of [CompassHUD] *)
(* ------------------------------------------------------------------ *)

(** The marks of [renderTapeMarks], for a mark at the integral degree
    [deg] (the loop runs over multiples of ten); [%] is the remainder that
    takes the sign of the dividend. *)
Definition normalizedDeg (deg : Z) : Z := Z.rem (Z.rem deg 360 + 360) 360.

Definition isCardinal (deg : Z) : bool :=
  Z.eqb (Z.rem (normalizedDeg deg) 90) 0.

Definition isInterCardinal (deg : Z) : bool :=
  (Z.eqb (Z.rem (normalizedDeg deg) 45) 0 && negb (isCardinal deg))%bool.

Definition isMajor (deg : Z) : bool :=
  Z.eqb (Z.rem (normalizedDeg deg) 30) 0.

(** [y2] of the tick line. *)
Definition tickLength (deg : Z) : Z :=
  if isCardinal deg then 28
  else if isInterCardinal deg then 22
  else if isMajor deg then 16 else 10.

(** [CARDINAL_POINTS[n]] *)
Definition CARDINAL_POINTS (n : Z) : option string :=
  if Z.eqb n 0 then Some "N"
  else if Z.eqb n 45 then Some "NE"
  else if Z.eqb n 90 then Some "E"
  else if Z.eqb n 135 then Some "SE"
  else if Z.eqb n 180 then Some "S"
  else if Z.eqb n 225 then Some "SW"
  else if Z.eqb n 270 then Some "W"
  else if Z.eqb n 315 then Some "NW"
  else None.

(** The label of a mark: the name of the point or the number, for the
    marks that carry one. *)
Inductive label : Type :=
  | Point (name : string)
  | Degrees (n : Z).

Definition mark_label (deg : Z) : option label :=
  if (isMajor deg || isCardinal deg || isInterCardinal deg)%bool then
    match CARDINAL_POINTS (normalizedDeg deg) with
    | Some s => Some (Point s)
    | None => Some (Degrees (normalizedDeg deg))
    end
  else None.

(** The marks of the tape, by the degree modulo 360 of a multiple of ten:
    the four cardinal points, the numbers at the other multiples of thirty,
    and a bare short tick elsewhere. *)
Definition tape_mark (n : Z) : Z * option label :=
  if Z.eqb n 0 then (28, Some (Point "N"))%Z
  else if Z.eqb n 90 then (28, Some (Point "E"))%Z
  else if Z.eqb n 180 then (28, Some (Point "S"))%Z
  else if Z.eqb n 270 then (28, Some (Point "W"))%Z
  else if Z.eqb (n mod 30) 0 then (16, Some (Degrees n))%Z
  else (10, None)%Z.

(** The text of several chunks, one after the other. *)
Definition flatten (chunks : list string) : string :=
  fold_right append EmptyString chunks.

(** The number of hexadecimal digits among the characters of a string. *)
Fixpoint hex_count (s : string) : nat :=
  match s with
  | EmptyString => 0
  | String c r =>
      match hexDigit c with
      | Some _ => S (hex_count r)
      | None => hex_count r
      end
  end.

(* ================================================================== *)
(** * The properties *)
(* ================================================================== *)

(* ================================================================== *)
(** ** Properties of the store *)
(* ================================================================== *)

Open Scope nat_scope.

Lemma update_length (A : Type) (f : A -> A) (l : list A) (n : nat) :
  List.length (update n f l) = List.length l.
Proof.
  revert n; induction l as [|x r IH]; intros [|n]; simpl; auto.
Qed.

Lemma nth_update_same (A : Type) (f : A -> A) (l : list A) (n : nat) (d : A) :
  n < List.length l -> nth n (update n f l) d = f (nth n l d).
Proof.
  revert n; induction l as [|x r IH]; intros [|n] H; simpl in *;
    try lia; auto.
  apply IH; lia.
Qed.

Lemma nth_update_other (A : Type) (f : A -> A) (l : list A) (n m : nat) (d : A) :
  n <> m -> nth m (update n f l) d = nth m l d.
Proof.
  revert n m; induction l as [|x r IH]; intros [|n] [|m] H; simpl;
    try congruence; auto.
Qed.

Lemma update_fixed (A : Type) (f : A -> A) (l : list A) (n : nat) (d : A) :
  f (nth n l d) = nth n l d -> n < List.length l -> update n f l = l.
Proof.
  revert n; induction l as [|x r IH]; intros [|n] H Hn; simpl in *;
    try lia; try congruence.
  f_equal; apply IH; auto; lia.
Qed.

Lemma nth_app_left (A : Type) (l r : list A) (n : nat) (d : A) :
  n < List.length l -> nth n (l ++ r) d = nth n l d.
Proof. intro H; apply app_nth1; exact H. Qed.

Lemma nth_app_end (A : Type) (l : list A) (x d : A) :
  nth (List.length l) (l ++ [x]) d = x.
Proof.
  rewrite app_nth2 by lia. now rewrite Nat.sub_diag.
Qed.

Section StoreFacts.

Variable callback : listener -> OBDData -> list listener.

Lemma unsubscribe_frame (l : listener) (st : OBDService) :
  core (unsubscribe l st) = core st /\
  objects (unsubscribe l st) = objects st /\
  trace (unsubscribe l st) = trace st /\
  (exists extra, arrays (unsubscribe l st) = arrays st ++ extra) /\
  listeners (unsubscribe l st) < List.length (arrays (unsubscribe l st)).
Proof.
  unfold unsubscribe; simpl; repeat split; auto.
  - eexists; reflexivity.
  - rewrite length_app; simpl; lia.
Qed.

Lemma unsubscribes_frame (us : list listener) (st : OBDService) :
  let st' := fold_left (fun s u => unsubscribe u s) us st in
  core st' = core st /\
  objects st' = objects st /\
  trace st' = trace st /\
  (exists extra, arrays st' = arrays st ++ extra) /\
  (listeners st < List.length (arrays st) ->
   listeners st' < List.length (arrays st')).
Proof.
  revert st; induction us as [|u r IH]; intro st; simpl.
  - repeat split; auto. exists []; now rewrite app_nil_r.
  - destruct (unsubscribe_frame u st) as (Hc & Ho & Ht & [e He] & Hl).
    destruct (IH (unsubscribe u st)) as (Hc' & Ho' & Ht' & [e' He'] & Hl').
    repeat split; try congruence.
    + exists (e ++ e'). rewrite He', He. now rewrite app_assoc.
    + intros _. apply Hl'. exact Hl.
Qed.

Lemma unsubscribe_subscribed (l : listener) (st : OBDService) (x : listener) :
  In x (subscribed (unsubscribe l st)) <-> In x (subscribed st) /\ x <> l.
Proof.
  unfold subscribed, unsubscribe, array_at; simpl.
  rewrite nth_app_end. rewrite filter_In.
  split; intros [H1 H2]; split; auto.
  - intros ->. now rewrite Nat.eqb_refl in H2.
  - apply negb_true_iff. now apply Nat.eqb_neq.
Qed.

Lemma unsubscribes_subscribed (us : list listener) (st : OBDService)
    (x : listener) :
  In x (subscribed (fold_left (fun s u => unsubscribe u s) us st)) <->
  In x (subscribed st) /\ ~ In x us.
Proof.
  revert st; induction us as [|u r IH]; intro st; simpl.
  - tauto.
  - rewrite IH, unsubscribe_subscribed. intuition congruence.
Qed.

Lemma call_subscribed (l : listener) (o : loc) (st : OBDService)
    (x : listener) :
  In x (subscribed (call callback l o st)) <->
  In x (subscribed st) /\ ~ In x (callback l (object_at o st)).
Proof.
  unfold call. rewrite unsubscribes_subscribed. reflexivity.
Qed.

Lemma call_frame (l : listener) (o : loc) (st : OBDService) :
  let st' := call callback l o st in
  core st' = core st /\
  objects st' = objects st /\
  trace st' = trace st ++ [Delivered l o] /\
  (exists extra, arrays st' = arrays st ++ extra) /\
  (listeners st < List.length (arrays st) ->
   listeners st' < List.length (arrays st')).
Proof.
  unfold call.
  destruct (unsubscribes_frame
              (callback l (object_at o (log (Delivered l o) st)))
              (log (Delivered l o) st)) as (Hc & Ho & Ht & He & Hl).
  simpl in *. repeat split; auto.
Qed.

Lemma deliveries_app (xs ys : list listener) (o : loc) :
  deliveries (xs ++ ys) o =
  deliveries xs o ++ deliveries ys (o + List.length xs).
Proof.
  revert o; induction xs as [|x r IH]; intro o; simpl.
  - now rewrite Nat.add_0_r.
  - rewrite IH. do 3 f_equal. lia.
Qed.

Lemma skipn_cons_nth (A : Type) (l : list A) (i : nat) (x : A) :
  nth_error l i = Some x -> skipn i l = x :: skipn (S i) l.
Proof.
  revert i; induction l as [|y r IH]; intros [|i] H; simpl in *;
    try discriminate.
  - now injection H as ->.
  - now apply IH.
Qed.

Lemma notify_loop (a : aloc) (ls : list listener) (d : OBDData) :
  forall (k i : nat) (s : OBDService),
    i + k = List.length ls ->
    a < List.length (arrays s) ->
    array_at a s = ls ->
    wf s ->
    snapshot s = d ->
    let s' := fold_left (notify_step callback a) (seq i k) s in
    core s' = core s /\
    objects s' = objects s ++ repeat d k /\
    trace s' = trace s ++ deliveries (skipn i ls) (List.length (objects s)) /\
    (exists extra, arrays s' = arrays s ++ extra) /\
    wf s' /\
    (forall x, In x (subscribed s') <->
               In x (subscribed s) /\
               forall l, In l (skipn i ls) -> ~ In x (callback l d)).
Proof.
  induction k as [|k IH]; intros i s Hik Ha Hls Hwf Hd; simpl.
  - assert (skipn i ls = []) as -> by (apply skipn_all2; lia).
    simpl. rewrite !app_nil_r. repeat split; try apply Hwf; try tauto.
    exists []; now rewrite app_nil_r.
  - destruct (nth_error (array_at a s) i) as [l|] eqn:Hn.
    2:{ apply nth_error_None in Hn. rewrite Hls in Hn. lia. }
    set (s1 := set_objects (objects s ++ [snapshot s]) s).
    assert (Hstep : notify_step callback a s i =
                    call callback l (List.length (objects s)) s1).
    { unfold notify_step. rewrite Hn. reflexivity. }
    rewrite Hstep.
    destruct (call_frame l (List.length (objects s)) s1)
      as (Hc & Ho & Ht & [e He] & Hl).
    set (s2 := call callback l (List.length (objects s)) s1) in *.
    assert (Hwf2 : wf s2).
    { destruct Hwf as [Hw1 Hw2]. split.
      - assert (data s2 = data s) as -> by
          (change (data s) with (data s1);
           now injection Hc).
        rewrite Ho. unfold s1; simpl. rewrite length_app; simpl; lia.
      - apply Hl. exact Hw2. }
    assert (Ha2 : a < List.length (arrays s2)).
    { rewrite He. rewrite length_app. unfold s1; simpl. lia. }
    assert (Hls2 : array_at a s2 = ls).
    { unfold array_at. rewrite He. rewrite nth_app_left by (unfold s1; simpl; lia).
      exact Hls. }
    assert (Hd2 : snapshot s2 = d).
    { unfold snapshot, object_at.
      assert (data s2 = data s) as -> by
        (change (data s) with (data s1); now injection Hc).
      rewrite Ho. unfold s1; simpl.
      rewrite nth_app_left by apply Hwf. exact Hd. }
    destruct (IH (S i) s2) as (Hc' & Ho' & Ht' & [e' He'] & Hwf' & Hsub');
      try assumption; try lia.
    assert (Hobj : object_at (List.length (objects s)) s1 = d).
    { unfold object_at, s1; simpl. rewrite nth_app_end. exact Hd. }
    split; [|split; [|split; [|split; [|split; [exact Hwf'|]]]]].
    + rewrite Hc'. rewrite Hc. reflexivity.
    + rewrite Ho', Ho. unfold s1; simpl. rewrite Hd.
      rewrite <- app_assoc. reflexivity.
    + rewrite Ht', Ht, Ho. unfold s1; simpl.
      rewrite <- app_assoc. f_equal.
      rewrite Hls in Hn.
      rewrite (skipn_cons_nth _ _ _ _ Hn).
      simpl. rewrite length_app; simpl.
      rewrite Nat.add_1_r. reflexivity.
    + exists (e ++ e'). rewrite He', He. unfold s1; simpl.
      now rewrite app_assoc.
    + intro x. rewrite Hsub'. unfold s2. rewrite call_subscribed, Hobj.
      rewrite Hls in Hn. rewrite (skipn_cons_nth _ _ _ _ Hn).
      change (subscribed s1) with (subscribed s).
      split.
      * intros [[H1 H2] H3]. split; auto.
        intros l0 [<-|Hl0]; auto.
      * intros [H1 H2]. repeat split; auto.
        -- apply H2. now left.
        -- intros l0 Hl0. apply H2. now right.
Qed.

(** What one publication does: every listener of the array that
    [this.listeners] names at the start is called once, in order, each with a
    new copy of the snapshot; afterwards the subscribers are those that no
    called listener has unsubscribed. *)
Lemma notifyListeners_spec (st : OBDService) :
  wf st ->
  let st' := notifyListeners callback st in
  core st' = core st /\
  objects st' =
    objects st ++ repeat (snapshot st) (List.length (subscribed st)) /\
  trace st' =
    trace st ++ deliveries (subscribed st) (List.length (objects st)) /\
  (exists extra, arrays st' = arrays st ++ extra) /\
  wf st' /\
  (forall x, In x (subscribed st') <->
             In x (subscribed st) /\
             forall l, In l (subscribed st) -> ~ In x (callback l (snapshot st))).
Proof.
  intro Hwf. unfold notifyListeners.
  apply (notify_loop (listeners st) (subscribed st) (snapshot st)
           (List.length (subscribed st)) 0 st); auto.
  apply Hwf.
Qed.

Lemma notifyListeners_snapshot (st : OBDService) :
  wf st -> snapshot (notifyListeners callback st) = snapshot st.
Proof.
  intro Hwf.
  destruct (notifyListeners_spec st Hwf) as (Hc & Ho & _).
  unfold snapshot, object_at.
  assert (data (notifyListeners callback st) = data st) as ->
    by now injection Hc.
  rewrite Ho. apply nth_app_left. apply Hwf.
Qed.

End StoreFacts.

(* ================================================================== *)
(** ** Properties of the decoder *)
(* ================================================================== *)

Lemma get_set_same (f : field) (v : float) (d : OBDData) :
  get f (set f v d) = v.
Proof. destruct d, f; reflexivity. Qed.


Lemma status_set (f : field) (v : float) (d : OBDData) :
  isConnected (set f v d) = isConnected d /\
  deviceName (set f v d) = deviceName d.
Proof. destruct d, f; split; reflexivity. Qed.

Lemma wf_mutate (f : OBDData -> OBDData) (st : OBDService) :
  wf st -> wf (mutate f st).
Proof.
  intros [H1 H2]; split; unfold mutate; simpl; auto.
  now rewrite update_length.
Qed.

Lemma snapshot_mutate (f : OBDData -> OBDData) (st : OBDService) :
  wf st -> snapshot (mutate f st) = f (snapshot st).
Proof.
  intros [H1 _]. unfold snapshot, object_at, mutate; simpl.
  now apply nth_update_same.
Qed.

(** A payload shorter than the guard of its case, or a PID outside the
    [switch], leaves the object as it is. *)
Lemma switch_pid_short (pid dataBytes : string) (d : OBDData) :
  match pid_field pid with
  | Some (_, n) => String.length dataBytes < n
  | None => True
  end ->
  switch_pid pid dataBytes d = d.
Proof.
  unfold pid_field, switch_pid.
  repeat (destruct (String.eqb pid _);
          [ intro H; apply Nat.leb_gt in H; rewrite H; reflexivity | ]).
  reflexivity.
Qed.


(** The [switch] leaves the status properties alone. *)
Lemma switch_pid_status (pid dataBytes : string) (d : OBDData) :
  isConnected (switch_pid pid dataBytes d) = isConnected d /\
  deviceName (switch_pid pid dataBytes d) = deviceName d.
Proof.
  unfold switch_pid.
  repeat (destruct (String.eqb pid _);
          [ match goal with
            | |- context [Nat.leb ?a ?b] =>
                destruct (Nat.leb a b); [apply status_set | split; reflexivity]
            end | ]).
  split; reflexivity.
Qed.

Section DecoderFacts.

Variable callback : listener -> OBDData -> list listener.

Lemma parse_rejected (r : string) (st : OBDService) :
  startsWith "41" (clean r) = false -> parseOBDResponse callback r st = st.
Proof. unfold parseOBDResponse. intros ->. reflexivity. Qed.

Lemma parse_accepted (r : string) (st : OBDService) :
  startsWith "41" (clean r) = true ->
  parseOBDResponse callback r st =
  notifyListeners callback
    (mutate (switch_pid (substring 2 4 (clean r)) (substringFrom 4 (clean r))) st).
Proof. unfold parseOBDResponse. intros ->. reflexivity. Qed.

Lemma parse_wf (r : string) (st : OBDService) :
  wf st -> wf (parseOBDResponse callback r st).
Proof.
  intro H. destruct (startsWith "41" (clean r)) eqn:E.
  - rewrite parse_accepted by assumption.
    apply notifyListeners_spec. now apply wf_mutate.
  - now rewrite parse_rejected.
Qed.

Lemma parse_snapshot (r : string) (st : OBDService) :
  wf st ->
  snapshot (parseOBDResponse callback r st) =
  if startsWith "41" (clean r)
  then switch_pid (substring 2 4 (clean r)) (substringFrom 4 (clean r))
         (snapshot st)
  else snapshot st.
Proof.
  intro H. destruct (startsWith "41" (clean r)) eqn:E.
  - rewrite parse_accepted by assumption.
    rewrite notifyListeners_snapshot by now apply wf_mutate.
    now apply snapshot_mutate.
  - now rewrite parse_rejected.
Qed.

End DecoderFacts.

Lemma wf_new : wf new_OBDService.
Proof. split; simpl; lia. Qed.

Lemma echo_rejected (r : string) :
  In r sent_commands -> startsWith "41" (clean r) = false.
Proof.
  unfold sent_commands, INIT_COMMANDS, OBD_PIDS.all; simpl.
  intro H. repeat (destruct H as [<-|H]; [reflexivity|]). contradiction.
Qed.

(** C4 (as stated, refuted). The payload of [410C1AFG] has three
    hexadecimal digits, fewer than the four that PID [0C] asks for, but four
    characters: the guard of the case counts characters of any kind, and the
    decoder stores 1668 in [rpm], which was 0. *)
Lemma C4_counterexample :
  let r := "410C1AFG" in
  let st' := parseOBDResponse (fun _ _ => []) r new_OBDService in
  pid_field (substring 2 4 (clean r)) = Some (F_rpm, 4) /\
  hex_count (substringFrom 4 (clean r)) = 3 /\
  rpm (snapshot new_OBDService) = 0%float /\
  rpm (snapshot st') = 1668%float.
Proof. vm_compute. repeat split; reflexivity. Qed.

(** C4 (as the code has it). A malformed response leaves every property
    of the live snapshot as it was, and the snapshot object is the same:
    [NODATA], the echo of a sent command, any response that does not start
    with [41] after cleaning, and a response whose cleaned payload has fewer
    characters, of any kind, than the guard of its PID asks for.  The
    decoder is a total function and raises nothing. *)
Theorem C4_malformed_input_ignored
    (callback : listener -> OBDData -> list listener)
    (r : string) (st : OBDService) :
  wf st ->
  malformed r ->
  snapshot (parseOBDResponse callback r st) = snapshot st /\
  data (parseOBDResponse callback r st) = data st.
Proof.
  intros Hwf H.
  assert (Hrej : startsWith "41" (clean r) = false ->
                 snapshot (parseOBDResponse callback r st) = snapshot st /\
                 data (parseOBDResponse callback r st) = data st).
  { intro E. now rewrite parse_rejected. }
  destruct H as [-> | H | H | f n Hp Hf Hn].
  - apply Hrej. reflexivity.
  - apply Hrej. now apply echo_rejected.
  - now apply Hrej.
  - split.
    + rewrite parse_snapshot, Hp by assumption.
      apply switch_pid_short. now rewrite Hf.
    + rewrite parse_accepted by assumption.
      destruct (notifyListeners_spec callback _ (wf_mutate
                  (switch_pid (substring 2 4 (clean r))
                     (substringFrom 4 (clean r))) _ Hwf)) as (Hc & _).
      now injection Hc.
Qed.

Lemma C4_witness :
  snapshot (parseOBDResponse (fun _ _ => []) "41 0C 1A" new_OBDService)
  = snapshot new_OBDService /\
  data (parseOBDResponse (fun _ _ => []) "41 0C 1A" new_OBDService)
  = data new_OBDService.
Proof.
  apply (C4_malformed_input_ignored (fun _ _ => []) "41 0C 1A" new_OBDService).
  - split; simpl; lia.
  - apply (Partial "41 0C 1A" F_rpm 4); [reflexivity | reflexivity | simpl; lia].
Defined.

Lemma deliveries_In (ls : list listener) (l : listener) (o : loc) :
  In l ls ->
  exists j, j < List.length ls /\ In (Delivered l (o + j)) (deliveries ls o).
Proof.
  revert o; induction ls as [|x r IH]; intros o H; simpl in *; [contradiction|].
  destruct H as [->|H].
  - exists 0. split; [lia|]. left. now rewrite Nat.add_0_r.
  - destruct (IH (S o) H) as (j & Hj & Hin).
    exists (S j). split; [lia|]. right.
    now replace (o + S j) with (S o + j) by lia.
Qed.

Lemma since_app (st st' : OBDService) (evs : list event) :
  trace st' = trace st ++ evs -> since (List.length (trace st)) st' = evs.
Proof.
  unfold since. intros ->. rewrite skipn_app, Nat.sub_diag, skipn_all.
  reflexivity.
Qed.

(** Every subscriber of the moment receives, in a publication, a new
    object that holds the values of the live snapshot. *)
Lemma notifyListeners_delivers
    (callback : listener -> OBDData -> list listener)
    (st : OBDService) (l : listener) :
  wf st ->
  In l (subscribed st) ->
  exists o,
    In (Delivered l o)
       (since (List.length (trace st)) (notifyListeners callback st)) /\
    List.length (objects st) <= o /\
    object_at o (notifyListeners callback st) = snapshot st.
Proof.
  intros Hwf Hl.
  destruct (notifyListeners_spec callback st Hwf) as (_ & Ho & Ht & _).
  destruct (deliveries_In (subscribed st) l (List.length (objects st)) Hl)
    as (j & Hj & Hin).
  exists (List.length (objects st) + j). split; [|split; [lia|]].
  - now rewrite (since_app _ _ _ Ht).
  - unfold object_at. rewrite Ho.
    rewrite app_nth2 by lia.
    replace (List.length (objects st) + j - List.length (objects st)) with j
      by lia.
    apply nth_repeat_lt. exact Hj.
Qed.

(** C7. When a subscriber unsubscribes itself inside its own callback
    during a publication, every subscriber registered when the publication
    began, those after it too, is still called with a copy of that
    publication's snapshot; the one that unsubscribed is no longer
    subscribed afterwards.  Nothing is thrown: the publication is a total
    function of the state. *)
Theorem C7_unsubscribe_inside_callback
    (callback : listener -> OBDData -> list listener)
    (st : OBDService) (u l : listener) :
  wf st ->
  In u (subscribed st) ->
  In u (callback u (snapshot st)) ->
  In l (subscribed st) ->
  (exists o,
     In (Delivered l o)
        (since (List.length (trace st)) (notifyListeners callback st)) /\
     object_at o (notifyListeners callback st) = snapshot st) /\
  ~ In u (subscribed (notifyListeners callback st)).
Proof.
  intros Hwf Hu Hself Hl. split.
  - destruct (notifyListeners_delivers callback st l Hwf Hl) as (o & H1 & _ & H2).
    now exists o.
  - destruct (notifyListeners_spec callback st Hwf) as (_ & _ & _ & _ & _ & Hs).
    rewrite Hs. intros [_ H]. exact (H u Hu Hself).
Qed.

Lemma C7_witness :
  let cb := fun (l : listener) (d : OBDData) =>
              if (Nat.eqb l 2 && isConnected d)%bool then [2] else [] in
  let st := mutate (set_status true "ELM327")
              (snd (subscribe cb 3 (snd (subscribe cb 2 (snd (subscribe cb 1
                 new_OBDService)))))) in
  (exists o,
     In (Delivered 3 o) (since (List.length (trace st)) (notifyListeners cb st)) /\
     object_at o (notifyListeners cb st) = snapshot st) /\
  ~ In 2 (subscribed (notifyListeners cb st)).
Proof.
  intros cb st.
  apply (C7_unsubscribe_inside_callback cb st 2 3).
  - split; vm_compute; lia.
  - vm_compute; auto 10.
  - vm_compute; auto 10.
  - vm_compute; auto 10.
Defined.

(** C10. The response [410CZZZZ] passes every check of the decoder (it
    starts with [41], its PID is a case of the [switch], its payload has the
    four characters asked for) though its payload holds no hexadecimal
    digit; the decoder then stores [NaN] in [rpm] and publishes it: every
    subscriber is called with a snapshot whose [rpm] is [NaN]. *)
Theorem C10_non_hex_payload_stores_NaN
    (callback : listener -> OBDData -> list listener)
    (st : OBDService) (l : listener) :
  wf st ->
  In l (subscribed st) ->
  let r := "410CZZZZ" in
  let st' := parseOBDResponse callback r st in
  decoded_field r = Some F_rpm /\
  has_non_hex (substringFrom 4 (clean r)) = true /\
  rpm (snapshot st') = nan /\
  exists o,
    In (Delivered l o) (since (List.length (trace st)) st') /\
    rpm (object_at o st') = nan.
Proof.
  intros Hwf Hl r st'.
  split; [reflexivity|]. split; [reflexivity|].
  assert (Hacc : startsWith "41" (clean r) = true) by reflexivity.
  assert (Hsw : forall d,
             rpm (switch_pid (substring 2 4 (clean r))
                    (substringFrom 4 (clean r)) d) = nan).
  { intro d. destruct d. vm_compute. reflexivity. }
  split.
  - unfold st'. rewrite parse_snapshot, Hacc by assumption. apply Hsw.
  - unfold st'. rewrite parse_accepted by assumption.
    set (f := switch_pid (substring 2 4 (clean r)) (substringFrom 4 (clean r))).
    destruct (notifyListeners_delivers callback (mutate f st) l)
      as (o & H1 & _ & H2).
    + now apply wf_mutate.
    + exact Hl.
    + exists o. split; [exact H1|].
      rewrite H2, snapshot_mutate by assumption. apply Hsw.
Qed.

Lemma C10_witness :
  let cb := fun (_ : listener) (_ : OBDData) => @nil listener in
  let st := snd (subscribe cb 7 new_OBDService) in
  let st' := parseOBDResponse cb "410CZZZZ" st in
  decoded_field "410CZZZZ" = Some F_rpm /\
  has_non_hex (substringFrom 4 (clean "410CZZZZ")) = true /\
  rpm (snapshot st') = nan /\
  exists o,
    In (Delivered 7 o) (since (List.length (trace st)) st') /\
    rpm (object_at o st') = nan.
Proof.
  intros cb st.
  apply (C10_non_hex_payload_stores_NaN cb st 7).
  - split; vm_compute; lia.
  - vm_compute; auto 10.
Defined.

Lemma set_responseBuffer_twice (v w : string) (st : OBDService) :
  set_responseBuffer v (set_responseBuffer w st) = set_responseBuffer v st.
Proof. reflexivity. Qed.

(** C6. From an empty buffer, a response that arrives in two chunks, the
    first without the prompt [>], leaves the service in the state that the
    same text arriving as one chunk leaves it in: the same responses are
    decoded in the same order, the same snapshots are published, the
    snapshot and the buffer are the same. *)
Theorem C6_split_response_same_as_whole
    (callback : listener -> OBDData -> list listener)
    (c1 c2 : string) (st : OBDService) :
  responseBuffer st = EmptyString ->
  includes ">" c1 = false ->
  handleResponse callback c2 (handleResponse callback c1 st)
  = handleResponse callback (c1 ++ c2)%string st.
Proof.
  intros Hb Hc. unfold handleResponse at 2.
  simpl. rewrite Hb. simpl. rewrite Hc.
  unfold handleResponse. simpl. rewrite Hb. simpl.
  rewrite set_responseBuffer_twice. reflexivity.
Qed.

Lemma C6_witness :
  handleResponse (fun _ _ => []) " F8>"
    (handleResponse (fun _ _ => []) "41 0C 1A" new_OBDService)
  = handleResponse (fun _ _ => []) "41 0C 1A F8>" new_OBDService.
Proof.
  apply (C6_split_response_same_as_whole (fun _ _ => [])
           "41 0C 1A" " F8>" new_OBDService); reflexivity.
Defined.

(** C2 (the code departs from it). [subscribe] registers the listener and
    calls it once, but with the live snapshot object itself: after
    [subscribe(1)] on a new service the object delivered is [this.data], and
    the response [410D50] that is decoded later changes the [speed] of that
    very object from 0 to 80, while the copy that the publication hands to
    the same listener is a different object. *)
Theorem C2_subscribe_delivers_live_object :
  let cb := fun (_ : listener) (_ : OBDData) => @nil listener in
  let st1 := snd (subscribe cb 1 new_OBDService) in
  let st2 := handleResponse cb "410D50>" st1 in
  subscribed st1 = [1] /\
  trace st1 = [Delivered 1 (data st1)] /\
  speed (object_at (data st1) st1) = 0%float /\
  speed (object_at (data st1) st2) = 80%float /\
  since 1 st2 = [Delivered 1 1] /\
  data st2 = 0.
Proof.
  vm_compute. repeat split; reflexivity.
Qed.

(* ------------------------------------------------------------------ *)
(** *** The decoding rules *)
(* ------------------------------------------------------------------ *)

Lemma clean_stable (s : string) : stable s = true -> clean s = s.
Proof.
  unfold clean. induction s as [|c r IH]; simpl; [reflexivity|].
  intro H. apply andb_true_iff in H as [H Hr].
  apply andb_true_iff in H as [Hw Hu].
  apply negb_true_iff in Hw. apply String.eqb_eq in Hu.
  rewrite Hw. cbn [toUpperCase]. rewrite Hu. simpl. f_equal. now apply IH.
Qed.

Lemma stable_app (s t : string) :
  stable (s ++ t)%string = (stable s && stable t)%bool.
Proof.
  induction s as [|c r IH]; simpl; [reflexivity|].
  rewrite IH. now rewrite andb_assoc.
Qed.

Lemma stable_hex2 (a : byte) : stable (hex2 a) = true.
Proof. destruct a; reflexivity. Qed.

Lemma hex2_chars (a : byte) :
  exists h l, hex2 a = String h (String l EmptyString).
Proof. unfold hex2. eauto. Qed.

Lemma parseInt16_hex2 (a : byte) : parseInt16 (hex2 a) = byte_value a.
Proof. destruct a; vm_compute; reflexivity. Qed.

Lemma switch_pid_rule (pid : string) (r : rule) (a b : byte) (d : OBDData) :
  In (pid, r) decode_rules ->
  let resp := response_for pid r a b in
  startsWith "41" resp = true /\
  switch_pid (substring 2 4 resp) (substringFrom 4 resp) d = apply_rule r a b d.
Proof.
  intro H.
  destruct (hex2_chars a) as (h1 & l1 & Ha).
  destruct (hex2_chars b) as (h2 & l2 & Hb).
  pose proof (parseInt16_hex2 a) as Pa.
  pose proof (parseInt16_hex2 b) as Pb.
  rewrite Ha in Pa. rewrite Hb in Pb.
  unfold decode_rules in H. simpl in H.
  repeat (destruct H as [H|H];
          [ injection H as <- <-; unfold response_for, apply_rule;
            rewrite ?Ha, ?Hb; split; [reflexivity|];
            cbv [append substring substringFrom drop take String.length
                 Nat.min Nat.max Nat.sub switch_pid String.eqb Ascii.eqb
                 Bool.eqb Nat.leb parsePercent parseTemp parseTwoBytes];
            rewrite ?Pa, ?Pb; reflexivity | ]).
  contradiction.
Qed.

Lemma response_for_stable (pid : string) (r : rule) (a b : byte) :
  In (pid, r) decode_rules -> stable (response_for pid r a b) = true.
Proof.
  intro H. unfold decode_rules in H. simpl in H.
  repeat (destruct H as [H|H];
          [ injection H as <- <-; unfold response_for;
            rewrite ?stable_app, ?stable_hex2; reflexivity | ]).
  contradiction.
Qed.

(** C5 (as the code has it). The decoder has twenty-one rules, those of
    [decode_rules]: for every PID of the table and all payload bytes, the
    response [41], PID, payload assigns to the field of the rule the value
    of its formula and to nothing else.  Besides the percentage
    [round(A*100/255)], the temperature [A-40] and the two-byte number
    [256*A+B] (rounded after the division by 4 for the RPM, rounded to one
    decimal for the fuel rate and the air flow, divided by 100, rounded and
    divided by 10 for the voltage) and the rounded signed percentage
    [round((A-128)*100/128)], there are the plain byte [A] (speed, manifold
    and barometric pressure), [A*3] (fuel pressure) and [A-125] (torque). *)
Theorem C5_decode_rules
    (callback : listener -> OBDData -> list listener)
    (pid : string) (r : rule) (a b : byte) (st : OBDService) :
  wf st ->
  In (pid, r) decode_rules ->
  snapshot (parseOBDResponse callback (response_for pid r a b) st)
  = apply_rule r a b (snapshot st).
Proof.
  intros Hwf H.
  rewrite parse_snapshot by assumption.
  rewrite (clean_stable _ (response_for_stable pid r a b H)).
  destruct (switch_pid_rule pid r a b (snapshot st) H) as [-> ->].
  reflexivity.
Qed.

Lemma C5_witness :
  snapshot (parseOBDResponse (fun _ _ => [])
              (response_for "0C" (TwoBytes F_rpm (fun x => Math_round (x / 4)%float))
                 x1a xf8) new_OBDService)
  = apply_rule (TwoBytes F_rpm (fun x => Math_round (x / 4)%float)) x1a xf8
      (snapshot new_OBDService).
Proof.
  apply (C5_decode_rules (fun _ _ => []) "0C" _ x1a xf8 new_OBDService).
  - split; simpl; lia.
  - simpl. auto.
Defined.

(** C5 (as stated, refuted). The rule of PID [0A] is none of the four
    shapes: from the payload [10] the decoder stores 48 in [fuelPressure],
    where the percentage gives 6, the temperature -24, the signed
    percentage -87.5, and a two-byte shape has no second byte to read. *)
Lemma C5_counterexample :
  let st' := parseOBDResponse (fun _ _ => []) "410A10" new_OBDService in
  decoded_field "410A10" = Some F_fuelPressure /\
  fuelPressure (snapshot st') = 48%float /\
  forall s : shape, shape_decode s "10" <> Some (fuelPressure (snapshot st')).
Proof.
  split; [reflexivity|]. split; [reflexivity|].
  intros s H.
  apply (f_equal (fun o => match o with
                           | Some x => PrimFloat.eqb x 48
                           | None => false
                           end)) in H.
  destruct s as [| |[c|]|]; vm_compute in H; discriminate.
Qed.

(* ================================================================== *)
(** ** Properties of the polling scheduler *)
(* ================================================================== *)

Lemma take_append_CR (c : string) (x : ascii) :
  take (String.length (c ++ String x EmptyString)%string - 1)
       (c ++ String x EmptyString)%string = c.
Proof.
  induction c as [|y r IH]; [reflexivity|].
  simpl. rewrite Nat.sub_0_r.
  destruct (r ++ String x EmptyString)%string eqn:E.
  - destruct r; discriminate.
  - simpl in IH. rewrite Nat.sub_0_r in IH. simpl. f_equal.
    rewrite <- E in *. rewrite <- IH at 2. reflexivity.
Qed.

Lemma find_store_timer (id : timer) (p q : Poller) (ts : list (timer * Poller)) :
  find_timer id ts = Some p -> find_timer id (store_timer id q ts) = Some q.
Proof.
  induction ts as [|[i r] ts IH]; simpl; [discriminate|].
  destruct (Nat.eqb i id) eqn:E; simpl; rewrite E; auto.
Qed.

Lemma find_timer_fresh (id : timer) (p : Poller) (ts : list (timer * Poller)) :
  Forall (fun t => fst t < id) ts ->
  find_timer id (ts ++ [(id, p)]) = Some p.
Proof.
  induction 1 as [|[i r] ts Hi _ IH]; simpl.
  - now rewrite Nat.eqb_refl.
  - simpl in Hi. assert (Nat.eqb i id = false) as -> by (apply Nat.eqb_neq; lia).
    exact IH.
Qed.

(** The callback from its firing to its end is its firing followed by the
    settling of its write. *)
Lemma tick_is_fire_then_settle (id : timer) (st : OBDService) :
  fst (settle (fire id (st, []))) = state_of (tick id st).
Proof.
  unfold fire, tick.
  destruct (find_timer id (timers st)) as [p|] eqn:Hf; [|reflexivity].
  destruct (isConnected (snapshot st)); [|reflexivity].
  assert (T : forall cmd, timers (state_of (sendCommand cmd st)) = timers st).
  { intro cmd. unfold sendCommand.
    destruct (writeCharacteristic st) as [ch|]; [|reflexivity].
    destruct (writeWithResponse ch _); reflexivity. }
  destruct ((cycleCount p mod 5 =? 4) && (0 <? List.length (secondaryPids p)))%bool.
  - specialize (T (element (secondaryPids p) (secondaryIndex p))).
    destruct (sendCommand (element (secondaryPids p) (secondaryIndex p)) st)
      as [s|e s]; simpl in *; [|reflexivity].
    now rewrite T, Hf.
  - specialize (T (element (priorityPids p) (priorityIndex p))).
    destruct (sendCommand (element (priorityPids p) (priorityIndex p)) st)
      as [s|e s]; simpl in *; [|reflexivity].
    now rewrite T, Hf.
Qed.

(** One round of a polling service: the command of the closure is
    written and, when the write has settled, the closure moves on. *)
Lemma round_ready (id : timer) (p : Poller) (st : OBDService) :
  find_timer id (timers st) = Some p ->
  polling_ready st ->
  settle (fire id (st, []))
  = (set_timers (store_timer id (next_poller p) (timers st)) (nextTimer st)
       (log (Wrote (next_command p ++ String (ascii_of_nat 13) EmptyString)%string) st),
     []).
Proof.
  intros Hf [Hc (ch & Hw & Hacc)].
  unfold fire. rewrite Hf, Hc.
  unfold next_command, next_poller.
  destruct ((cycleCount p mod 5 =? 4) && (0 <? List.length (secondaryPids p)))%nat;
    unfold sendCommand; rewrite Hw, Hacc; simpl; rewrite Hf; reflexivity.
Qed.

Lemma written_commands (cs : list string) :
  written
    (map (fun c => Wrote (c ++ String (ascii_of_nat 13) EmptyString)%string) cs)
  = cs.
Proof.
  induction cs as [|c cs IH]; [reflexivity|].
  simpl map. cbn [written]. rewrite take_append_CR. now f_equal.
Qed.

Lemma rounds_ready (n : nat) (id : timer) :
  forall (p : Poller) (st : OBDService),
    find_timer id (timers st) = Some p ->
    polling_ready st ->
    let w := run (rounds n id) (st, []) in
    written (since (List.length (trace st)) (fst w)) = schedule n p /\
    trace (fst w) =
      trace st ++
      map (fun c => Wrote (c ++ String (ascii_of_nat 13) EmptyString)%string)
          (schedule n p) /\
    snapshot (fst w) = snapshot st /\
    snd w = [].
Proof.
  induction n as [|n IH]; intros p st Hf Hr.
  - simpl. rewrite app_nil_r.
    split; [unfold since; now rewrite skipn_all|]. auto.
  - cbn [rounds run fold_left do_step].
    rewrite (round_ready id p st Hf Hr).
    set (st1 := set_timers _ _ _).
    destruct (IH (next_poller p) st1) as (_ & H3 & H4 & H5).
    + unfold st1; simpl. now apply find_store_timer with p.
    + exact Hr.
    + unfold run in *.
      assert (Ht : trace (fst (fold_left do_step (rounds n id) (st1, []))) =
                   trace st ++
                   map (fun c => Wrote (c ++ String (ascii_of_nat 13) EmptyString)%string)
                       (schedule (S n) p)).
      { rewrite H3. unfold st1; simpl. now rewrite <- app_assoc. }
      split; [rewrite (since_app _ _ _ Ht); apply written_commands|].
      split; [exact Ht|]. split; [exact H4|exact H5].
Qed.

(** C1 (as the code has it). With the priority queue [A,B,C,D] and the
    secondary queue [E,F], when the write of each callback settles before
    the next callback fires, the first ten rounds of a polling service
    write A,B,C,D,E,A,B,C,D,F: the secondary queue takes rounds 4 and 9,
    where the cycle count is 4 modulo 5, and the priority queue resumes
    where it was. *)
Theorem C1_first_ten_rounds
    (A B C D E F : string) (st : OBDService) :
  polling_ready st ->
  timers_fresh st ->
  let w := run (rounds 10 (nextTimer st))
             (startPollingWith [A; B; C; D] [E; F] st, []) in
  written (since (List.length (trace st)) (fst w))
  = [A; B; C; D; E; A; B; C; D; F] /\
  snd w = [].
Proof.
  intros Hr Hfresh.
  destruct (rounds_ready 10 (nextTimer st)
              (mkPoller [A; B; C; D] [E; F] (Some 0) (Some 0) 0)
              (startPollingWith [A; B; C; D] [E; F] st))
    as (H1 & _ & _ & H4).
  - unfold startPollingWith; simpl. now apply find_timer_fresh.
  - exact Hr.
  - split; [exact H1|exact H4].
Qed.

Lemma C1_witness :
  let w := run (rounds 10 (nextTimer ready_service))
             (startPollingWith ["010C"; "010D"; "010B"; "0111"] ["0105"; "015C"]
                ready_service, []) in
  written (since (List.length (trace ready_service)) (fst w))
  = ["010C"; "010D"; "010B"; "0111"; "0105";
     "010C"; "010D"; "010B"; "0111"; "015C"] /\
  snd w = [].
Proof.
  apply (C1_first_ten_rounds "010C" "010D" "010B" "0111" "0105" "015C"
           ready_service).
  - split; [reflexivity|]. exists accepting. split; reflexivity.
  - constructor.
Defined.

(** C1 (as stated, refuted). With the queues [A,B,C,D] and [E,F], and
    each write settling before the next callback fires, the ten commands
    written are A,B,C,D,E,A,B,C,D,F and not A,B,C,D,A,E,B,C,D,A. *)
Lemma C1_counterexample :
  let w := run (rounds 10 1)
             (startPollingWith ["A"; "B"; "C"; "D"] ["E"; "F"] ready_service,
              []) in
  written (trace (fst w))
  = ["A"; "B"; "C"; "D"; "E"; "A"; "B"; "C"; "D"; "F"] /\
  written (trace (fst w))
  <> ["A"; "B"; "C"; "D"; "A"; "E"; "B"; "C"; "D"; "A"].
Proof.
  split; [reflexivity|].
  vm_compute. discriminate.
Qed.

(* ================================================================== *)
(** ** Properties of initialization, connection and disconnection *)
(* ================================================================== *)

(** C3 (as stated, refuted). With an adapter from which no response is
    ever framed (no notification is handled during the call), the six
    commands are written all the same and the connection succeeds: the
    snapshot is marked connected and polling starts; nothing waits for a
    response and there is no timeout that could fail. *)
Lemma C3_counterexample :
  let r := connectToDevice (fun _ _ => []) adapter new_OBDService in
  throws r = false /\
  written (trace (state_of r)) = INIT_COMMANDS /\
  responseBuffer (state_of r) = EmptyString /\
  isConnected (snapshot (state_of r)) = true /\
  pollingInterval (state_of r) = Some 1.
Proof. vm_compute. repeat split; reflexivity. Qed.

Lemma sendCommand_ok (c : string) (st : OBDService) (ch : Characteristic) :
  writeCharacteristic st = Some ch ->
  writeWithResponse ch (c ++ CR)%string = None ->
  sendCommand c st = Ok (log (Wrote (c ++ CR)%string) st).
Proof. unfold sendCommand, CR. intros -> ->. reflexivity. Qed.

Lemma sendCommand_throw (c : string) (st : OBDService) (ch : Characteristic)
    (e : error) :
  writeCharacteristic st = Some ch ->
  writeWithResponse ch (c ++ CR)%string = Some e ->
  sendCommand c st = Throw e (log (WriteRejected (c ++ CR)%string e) st).
Proof. unfold sendCommand, CR. intros -> ->. reflexivity. Qed.

Ltac trace_tail :=
  unfold since; simpl trace; rewrite <- ?app_assoc;
  rewrite skipn_app, Nat.sub_diag, skipn_all; reflexivity.

Ltac send_case H ch cmd k :=
  match goal with
  | |- context [sendCommand cmd ?s] =>
      let E := fresh "E" in
      let e := fresh "e" in
      destruct (writeWithResponse ch (cmd ++ CR)%string) as [e|] eqn:E;
      [ rewrite (sendCommand_throw cmd s ch e H E); cbn [bind state_of];
        split; [exists k; split; [lia|split; [exact E|trace_tail]]|reflexivity]
      | rewrite (sendCommand_ok cmd s ch H E); cbn [bind delay] ]
  end.

(** C3 (as the code has it). With a write characteristic, the adapter is
    initialized by writing ATZ, waiting 1000 ms, then writing ATE0, ATL0,
    ATS0, ATH0 and ATSP0, each once the write before it has resolved.  When
    a write rejects, its error is thrown, the commands before it have been
    written in order and none after it; in both cases the snapshot is as it
    was. *)
Theorem C3_initialization_sequence (st : OBDService) (ch : Characteristic) :
  writeCharacteristic st = Some ch ->
  match initializeAdapter st with
  | Ok st' =>
      since (List.length (trace st)) st'
      = [Wrote ("ATZ" ++ CR)%string; Delay 1000; Wrote ("ATE0" ++ CR)%string;
         Wrote ("ATL0" ++ CR)%string; Wrote ("ATS0" ++ CR)%string;
         Wrote ("ATH0" ++ CR)%string; Wrote ("ATSP0" ++ CR)%string]
  | Throw e st' =>
      exists k,
        k < 6 /\
        writeWithResponse ch (nth k INIT_COMMANDS EmptyString ++ CR)%string
        = Some e /\
        written (since (List.length (trace st)) st') = firstn k INIT_COMMANDS
  end /\
  snapshot (state_of (initializeAdapter st)) = snapshot st.
Proof.
  intro H. unfold initializeAdapter.
  send_case H ch "ATZ" 0.
  send_case H ch "ATE0" 1.
  send_case H ch "ATL0" 2.
  send_case H ch "ATS0" 3.
  send_case H ch "ATH0" 4.
  send_case H ch "ATSP0" 5.
  split; [trace_tail|reflexivity].
Qed.

Lemma C3_witness :
  let st := set_writeCharacteristic (Some refusing_ATS0) new_OBDService in
  match initializeAdapter st with
  | Ok st' =>
      since (List.length (trace st)) st'
      = [Wrote ("ATZ" ++ CR)%string; Delay 1000; Wrote ("ATE0" ++ CR)%string;
         Wrote ("ATL0" ++ CR)%string; Wrote ("ATS0" ++ CR)%string;
         Wrote ("ATH0" ++ CR)%string; Wrote ("ATSP0" ++ CR)%string]
  | Throw e st' =>
      exists k,
        k < 6 /\
        writeWithResponse refusing_ATS0
          (nth k INIT_COMMANDS EmptyString ++ CR)%string = Some e /\
        written (since (List.length (trace st)) st') = firstn k INIT_COMMANDS
  end /\
  snapshot (state_of (initializeAdapter st)) = snapshot st.
Proof.
  intro st.
  apply (C3_initialization_sequence st refusing_ATS0).
  reflexivity.
Defined.

Lemma stopPolling_frame (st : OBDService) :
  device (stopPolling st) = device st /\
  writeCharacteristic (stopPolling st) = writeCharacteristic st /\
  data (stopPolling st) = data st /\
  listeners (stopPolling st) = listeners st /\
  objects (stopPolling st) = objects st /\
  arrays (stopPolling st) = arrays st /\
  responseBuffer (stopPolling st) = responseBuffer st /\
  trace (stopPolling st) = trace st /\
  pollingInterval (stopPolling st) = None.
Proof.
  unfold stopPolling. destruct (pollingInterval st) eqn:E; simpl; auto 10.
Qed.


(** The rest of [disconnect], after the connection is cancelled: a new
    snapshot object with the initial values becomes the live one and is
    published. *)
Lemma disconnect_reset
    (callback : listener -> OBDData -> list listener) (s : OBDService) :
  listeners s < List.length (arrays s) ->
  let s' :=
    notifyListeners callback
      (set_data (List.length (objects s))
         (set_objects (objects s ++ [INITIAL_OBD_DATA])
            (set_writeCharacteristic None s))) in
  wf s' /\
  device s' = device s /\
  writeCharacteristic s' = None /\
  pollingInterval s' = pollingInterval s /\
  timers s' = timers s /\
  responseBuffer s' = responseBuffer s /\
  snapshot s' = INITIAL_OBD_DATA /\
  data s' = List.length (objects s) /\
  trace s' = trace s ++ deliveries (subscribed s) (S (List.length (objects s))).
Proof.
  intros Hl s'.
  set (s0 := set_data _ _) in s'.
  assert (Hwf : wf s0).
  { split; unfold s0; simpl; [rewrite length_app; simpl; lia | exact Hl]. }
  assert (Hs0 : snapshot s0 = INITIAL_OBD_DATA).
  { unfold snapshot, object_at, s0; simpl. apply nth_app_end. }
  destruct (notifyListeners_spec callback s0 Hwf) as (Hc & Ho & Ht & _ & Hwf' & _).
  fold s' in Hc, Ho, Ht, Hwf'.
  injection Hc as H1 H2 H3 H4 H5 H6 H7.
  repeat split; try apply Hwf'; auto.
  - unfold s'. rewrite notifyListeners_snapshot; assumption.
  - rewrite Ht. unfold s0; simpl. rewrite length_app; simpl.
    now rewrite Nat.add_1_r.
Qed.





(* ================================================================== *)
(** ** Further properties of the scheduler *)
(* ================================================================== *)

Lemma div5_succ (k : nat) :
  S k / 5 = if k mod 5 =? 4 then S (k / 5) else k / 5.
Proof.
  pose proof (Nat.div_mod_eq k 5) as E.
  pose proof (Nat.mod_upper_bound k 5 ltac:(lia)) as B.
  destruct (k mod 5 =? 4) eqn:H; symmetry.
  - apply Nat.eqb_eq in H. apply (Nat.div_unique _ _ _ 0); lia.
  - apply Nat.eqb_neq in H. apply (Nat.div_unique _ _ _ (S (k mod 5))); lia.
Qed.

Lemma div5_le (k : nat) : k / 5 <= k.
Proof. apply Nat.Div0.div_le_upper_bound. lia. Qed.

Lemma succ_mod (i len : nat) : len <> 0 -> (i mod len + 1) mod len = S i mod len.
Proof.
  intro H. rewrite Nat.Div0.add_mod_idemp_l. now rewrite Nat.add_1_r.
Qed.

Lemma advance_some (i len : nat) :
  len <> 0 -> advance (Some (i mod len)) len = Some (S i mod len).
Proof.
  intro H. unfold advance. destruct len as [|m]; [congruence|].
  now rewrite succ_mod.
Qed.

(** The closure after [k] rounds, for queues that are not empty: the
    secondary queue has been used [k / 5] times, the priority queue the
    other [k - k / 5] times. *)
Lemma poller_after (prio sec : list string) (k : nat) :
  prio <> [] -> sec <> [] ->
  Nat.iter k next_poller (mkPoller prio sec (Some 0) (Some 0) 0)
  = mkPoller prio sec
      (Some ((k - k / 5) mod (List.length prio)))
      (Some ((k / 5) mod (List.length sec))) k.
Proof.
  intros Hp Hs.
  assert (Lp : List.length prio <> 0) by (destruct prio; simpl; congruence).
  assert (Ls : List.length sec <> 0) by (destruct sec; simpl; congruence).
  induction k as [|k IH].
  - simpl. rewrite !Nat.Div0.mod_0_l. reflexivity.
  - simpl Nat.iter. rewrite IH. unfold next_poller; cbn [cycleCount
      priorityPids secondaryPids priorityIndex secondaryIndex].
    rewrite div5_succ. pose proof (div5_le k) as Hle.
    assert ((0 <? List.length sec) = true) as -> by (apply Nat.ltb_lt; lia).
    rewrite andb_true_r.
    destruct (k mod 5 =? 4) eqn:H; rewrite advance_some by assumption.
    + replace (S k - S (k / 5)) with (k - k / 5) by lia. reflexivity.
    + replace (S k - k / 5) with (S (k - k / 5)) by lia. reflexivity.
Qed.

Lemma schedule_nth (n k : nat) (p : Poller) (d : string) :
  k < n ->
  nth k (schedule n p) d = next_command (Nat.iter k next_poller p).
Proof.
  revert k p; induction n as [|n IH]; intros k p H; [lia|].
  destruct k as [|k]; simpl schedule; cbn [nth].
  - reflexivity.
  - rewrite IH by lia. f_equal.
    clear. induction k as [|k IHk]; [reflexivity|].
    simpl. now rewrite IHk.
Qed.

(** X1. The polling rule in closed form: with queues that are not empty,
    when the write of each callback settles before the next callback
    fires, round [k] (from 0) of a polling service writes the secondary PID
    of index [(k / 5) mod length] when [k mod 5 = 4], and the priority PID
    of index [(k - k / 5) mod length] in every other round. *)
Theorem polling_round_closed_form
    (prio sec : list string) (st : OBDService) (n k : nat) :
  polling_ready st ->
  timers_fresh st ->
  prio <> [] -> sec <> [] ->
  k < n ->
  let w := run (rounds n (nextTimer st)) (startPollingWith prio sec st, []) in
  nth k (written (since (List.length (trace st)) (fst w))) EmptyString
  = if k mod 5 =? 4
    then nth ((k / 5) mod (List.length sec)) sec EmptyString
    else nth ((k - k / 5) mod (List.length prio)) prio EmptyString.
Proof.
  intros Hr Hfresh Hp Hs Hk.
  destruct (rounds_ready n (nextTimer st)
              (mkPoller prio sec (Some 0) (Some 0) 0)
              (startPollingWith prio sec st))
    as (H2 & _).
  - unfold startPollingWith; simpl. now apply find_timer_fresh.
  - exact Hr.
  - cbv zeta.
    change (since (List.length (trace st)))
      with (since (List.length (trace (startPollingWith prio sec st)))).
    rewrite H2, schedule_nth by assumption.
    rewrite poller_after by assumption.
    unfold next_command; cbn [cycleCount priorityPids secondaryPids
      priorityIndex secondaryIndex element].
    assert (Lp : List.length prio <> 0) by (destruct prio; simpl; congruence).
    assert (Ls : List.length sec <> 0) by (destruct sec; simpl; congruence).
    assert ((0 <? List.length sec) = true) as -> by (apply Nat.ltb_lt; lia).
    rewrite andb_true_r.
    destruct (k mod 5 =? 4); apply nth_indep; now apply Nat.mod_upper_bound.
Qed.

Lemma polling_round_closed_form_witness :
  let w := run (rounds 30 (nextTimer ready_service))
             (startPollingWith PRIORITY_PIDS SECONDARY_PIDS ready_service, []) in
  nth 24 (written (since (List.length (trace ready_service)) (fst w))) EmptyString
  = if 24 mod 5 =? 4
    then nth ((24 / 5) mod (List.length SECONDARY_PIDS)) SECONDARY_PIDS EmptyString
    else nth ((24 - 24 / 5) mod (List.length PRIORITY_PIDS)) PRIORITY_PIDS EmptyString.
Proof.
  apply (polling_round_closed_form PRIORITY_PIDS SECONDARY_PIDS ready_service 30 24).
  - split; [reflexivity|]. exists accepting. split; reflexivity.
  - constructor.
  - discriminate.
  - discriminate.
  - lia.
Defined.

Lemma fires_repeat (id : timer) (p : Poller) (n : nat) :
  forall (st : OBDService) (q : list Pending),
    find_timer id (timers st) = Some p ->
    polling_ready st ->
    let w := run (repeat (Fire id) n) (st, q) in
    trace (fst w)
    = trace st ++
      map (fun c => Wrote (c ++ String (ascii_of_nat 13) EmptyString)%string)
          (repeat (next_command p) n) /\
    List.length (snd w) = List.length q + n /\
    find_timer id (timers (fst w)) = Some p.
Proof.
  induction n as [|n IH]; intros st q Hf Hr.
  - simpl. rewrite app_nil_r. auto.
  - cbn [repeat run fold_left do_step].
    assert (E : fire id (st, q)
                = (log (Wrote (next_command p
                                 ++ String (ascii_of_nat 13) EmptyString)%string) st,
                   q ++ [mkPending id
                           ((cycleCount p mod 5 =? 4)
                            && (0 <? List.length (secondaryPids p)))%bool None])).
    { destruct Hr as [Hc (ch & Hw & Hacc)].
      unfold fire. rewrite Hf, Hc. unfold next_command.
      destruct ((cycleCount p mod 5 =? 4)
                && (0 <? List.length (secondaryPids p)))%bool;
        unfold sendCommand; rewrite Hw, Hacc; reflexivity. }
    rewrite E.
    set (st1 := log _ st). set (q1 := q ++ _).
    destruct (IH st1 q1 Hf Hr) as (H1 & H2 & H3).
    unfold run in *. split; [|split; [|exact H3]].
    + rewrite H1. unfold st1; simpl. now rewrite <- app_assoc.
    + rewrite H2. unfold q1. rewrite length_app; simpl. lia.
Qed.

(** X2. The counters move only when a write settles: callbacks that fire
    while the writes before them are still unsettled, as they do when a
    write takes longer than the 150 ms of the interval, all write the same
    command, the one of the closure as the first of them found it, and all
    are left waiting. *)
Theorem overlapping_callbacks_repeat_the_command
    (id : timer) (p : Poller) (st : OBDService) (n : nat) :
  find_timer id (timers st) = Some p ->
  polling_ready st ->
  let w := run (repeat (Fire id) n) (st, []) in
  written (since (List.length (trace st)) (fst w)) = repeat (next_command p) n /\
  List.length (snd w) = n.
Proof.
  intros Hf Hr.
  destruct (fires_repeat id p n st [] Hf Hr) as (H1 & H2 & _).
  split; [|exact H2].
  cbv zeta. rewrite (since_app _ _ _ H1). apply written_commands.
Qed.

Lemma overlapping_callbacks_repeat_the_command_witness :
  let st := startPolling ready_service in
  let w := run (repeat (Fire 1) 3) (st, []) in
  written (since (List.length (trace st)) (fst w))
  = repeat (next_command
              (mkPoller PRIORITY_PIDS SECONDARY_PIDS (Some 0) (Some 0) 0)) 3 /\
  List.length (snd w) = 3.
Proof.
  intro st.
  apply (overlapping_callbacks_repeat_the_command 1
           (mkPoller PRIORITY_PIDS SECONDARY_PIDS (Some 0) (Some 0) 0) st 3).
  - reflexivity.
  - split; [reflexivity|]. exists accepting. split; reflexivity.
Defined.

(** X3. After a [disconnect] that succeeds no timer polls: a firing of
    any interval callback, of a timer that an earlier [startPolling] left
    running too, writes nothing and changes nothing. *)
Theorem no_polling_after_disconnect
    (callback : listener -> OBDData -> list listener)
    (st st' : OBDService) (id : timer) :
  wf st ->
  disconnect callback st = Ok st' ->
  tick id st' = Ok st'.
Proof.
  intros Hwf H.
  assert (Hs : snapshot st' = INITIAL_OBD_DATA).
  { unfold disconnect in H.
    destruct (stopPolling_frame st)
      as (F1 & F2 & F3 & F4 & F5 & F6 & F7 & F8 & F9).
    set (st1 := stopPolling st) in *.
    assert (Hl : listeners st1 < List.length (arrays st1))
      by (rewrite F4, F6; apply Hwf).
    destruct (device st1) as [d|].
    - destruct (cancelConnection d); [discriminate|].
      cbn [bind] in H. unfold spread in H. injection H as <-.
      apply (disconnect_reset callback (set_device None (log Cancelled st1))).
      exact Hl.
    - cbn [bind] in H. unfold spread in H. injection H as <-.
      now apply (disconnect_reset callback st1). }
  unfold tick. rewrite Hs. destruct (find_timer id (timers st')); reflexivity.
Qed.

Lemma no_polling_after_disconnect_witness :
  let cb := fun (_ : listener) (_ : OBDData) => @nil listener in
  let st := startPolling (startPolling ready_service) in
  tick 1 (state_of (disconnect cb st)) = Ok (state_of (disconnect cb st)).
Proof.
  intros cb st.
  apply (no_polling_after_disconnect cb st (state_of (disconnect cb st)) 1).
  - split; vm_compute; lia.
  - vm_compute. reflexivity.
Defined.

(* ================================================================== *)
(** ** Further properties of framing, decoding and publication *)
(* ================================================================== *)

Lemma split_cons_clean (sep : ascii) (x : string) :
  includes sep x = false -> split sep x = [x].
Proof.
  induction x as [|c r IH]; simpl; [reflexivity|].
  destruct (Ascii.eqb c sep); [discriminate|].
  intro H. now rewrite (IH H).
Qed.

Lemma split_append (sep : ascii) (x rest : string) :
  includes sep x = false ->
  split sep (x ++ String sep rest)%string = x :: split sep rest.
Proof.
  induction x as [|c r IH]; simpl.
  - now rewrite Ascii.eqb_refl.
  - destruct (Ascii.eqb c sep); [discriminate|].
    intro H. now rewrite (IH H).
Qed.

Lemma includes_append (sep : ascii) (x rest : string) :
  includes sep (x ++ String sep rest)%string = true.
Proof.
  induction x as [|c r IH]; simpl.
  - now rewrite Ascii.eqb_refl.
  - destruct (Ascii.eqb c sep); auto.
Qed.

(** Splitting undoes joining, for pieces without the separator. *)
Lemma split_join (sep : ascii) (ls : list string) :
  ls <> [] ->
  Forall (fun l => includes sep l = false) ls ->
  split sep (join sep ls) = ls.
Proof.
  intros Hne H. induction H as [|x r Hx Hr IH]; [congruence|].
  destruct r as [|y r'].
  - simpl. now apply split_cons_clean.
  - change (join sep (x :: y :: r'))
      with (x ++ String sep (join sep (y :: r')))%string.
    rewrite split_append by assumption. f_equal. apply IH. discriminate.
Qed.

Section BufferFrame.

Variable callback : listener -> OBDData -> list listener.

Lemma unsubscribes_buffer (b : string) (us : list listener) (s : OBDService) :
  fold_left (fun s u => unsubscribe u s) us (set_responseBuffer b s)
  = set_responseBuffer b (fold_left (fun s u => unsubscribe u s) us s).
Proof.
  revert s; induction us as [|u r IH]; intro s; simpl; [reflexivity|].
  now rewrite <- IH.
Qed.

Lemma call_buffer (b : string) (l : listener) (o : loc) (s : OBDService) :
  call callback l o (set_responseBuffer b s)
  = set_responseBuffer b (call callback l o s).
Proof. unfold call. now rewrite <- unsubscribes_buffer. Qed.

Lemma notify_step_buffer (b : string) (a : aloc) (s : OBDService) (i : nat) :
  notify_step callback a (set_responseBuffer b s) i
  = set_responseBuffer b (notify_step callback a s i).
Proof.
  unfold notify_step.
  change (array_at a (set_responseBuffer b s)) with (array_at a s).
  destruct (nth_error (array_at a s) i); [|reflexivity].
  unfold spread. now rewrite <- call_buffer.
Qed.

Lemma notify_loop_buffer (b : string) (a : aloc) (idx : list nat)
    (s : OBDService) :
  fold_left (notify_step callback a) idx (set_responseBuffer b s)
  = set_responseBuffer b (fold_left (notify_step callback a) idx s).
Proof.
  revert s. induction idx as [|i r IH]; intro s; simpl.
  - reflexivity.
  - rewrite notify_step_buffer. apply IH.
Qed.

Lemma notify_buffer (b : string) (s : OBDService) :
  notifyListeners callback (set_responseBuffer b s)
  = set_responseBuffer b (notifyListeners callback s).
Proof. unfold notifyListeners. apply notify_loop_buffer. Qed.

(** Decoding does not look at the buffer. *)
Lemma parse_buffer (b r : string) (s : OBDService) :
  parseOBDResponse callback r (set_responseBuffer b s)
  = set_responseBuffer b (parseOBDResponse callback r s).
Proof.
  unfold parseOBDResponse.
  destruct (negb (startsWith "41" (clean r))); [reflexivity|].
  now rewrite <- notify_buffer.
Qed.

Lemma parse_all_buffer (b : string) (rs : list string) (s : OBDService) :
  fold_left (fun s r => parseOBDResponse callback (trim r) s) rs
    (set_responseBuffer b s)
  = set_responseBuffer b
      (fold_left (fun s r => parseOBDResponse callback (trim r) s) rs s).
Proof.
  revert s; induction rs as [|r rs IH]; intro s; simpl; [reflexivity|].
  rewrite parse_buffer. apply IH.
Qed.

Lemma parse_keeps_buffer (r : string) (s : OBDService) :
  responseBuffer (parseOBDResponse callback r s) = responseBuffer s.
Proof.
  assert (E : s = set_responseBuffer (responseBuffer s) s)
    by (destruct s; reflexivity).
  rewrite E at 1. now rewrite parse_buffer.
Qed.

Lemma parse_all_keeps_buffer (rs : list string) (s : OBDService) :
  responseBuffer
    (fold_left (fun s r => parseOBDResponse callback (trim r) s) rs s)
  = responseBuffer s.
Proof.
  revert s; induction rs as [|r rs IH]; intro s; simpl; [reflexivity|].
  rewrite IH. apply parse_keeps_buffer.
Qed.

End BufferFrame.

(** X4. Responses that arrive batched in one chunk, each followed by the
    prompt [>], are decoded one by one in the order of arrival, each
    trimmed, and the buffer is empty afterwards. *)
Theorem batched_responses_decoded_in_order
    (callback : listener -> OBDData -> list listener)
    (rs : list string) (st : OBDService) :
  responseBuffer st = EmptyString ->
  rs <> [] ->
  Forall (fun r => includes ">" r = false) rs ->
  handleResponse callback (join ">" (rs ++ [EmptyString])) st
  = fold_left (fun s r => parseOBDResponse callback (trim r) s) rs st.
Proof.
  intros Hb Hne Hrs.
  assert (Hsplit : split ">" (join ">" (rs ++ [EmptyString]))
                   = rs ++ [EmptyString]).
  { apply split_join.
    - destruct rs; discriminate.
    - apply Forall_app. split; [exact Hrs|]. now constructor. }
  assert (Hinc : includes ">" (join ">" (rs ++ [EmptyString])) = true).
  { destruct rs as [|x r]; [congruence|].
    destruct r as [|y r'].
    - simpl. apply includes_append.
    - change (join ">" ((x :: y :: r') ++ [EmptyString]))
        with (x ++ String ">" (join ">" ((y :: r') ++ [EmptyString])))%string.
      apply includes_append. }
  unfold handleResponse. rewrite Hb.
  change (responseBuffer (set_responseBuffer ?b st)) with b.
  cbn [append]. 
  replace (responseBuffer
             (set_responseBuffer (join ">" (rs ++ [EmptyString])) st))
    with (join ">" (rs ++ [EmptyString])) by reflexivity.
  rewrite Hinc, Hsplit, fold_left_app.
  rewrite parse_all_buffer. simpl fold_left at 1.
  rewrite parse_rejected by reflexivity.
  rewrite set_responseBuffer_twice.
  pose proof (parse_all_keeps_buffer callback rs st) as Hrb.
  rewrite Hb in Hrb.
  destruct (fold_left _ rs st) eqn:E.
  unfold set_responseBuffer; simpl in *. now rewrite Hrb.
Qed.

Lemma batched_responses_decoded_in_order_witness :
  handleResponse (fun _ _ => [])
    (join ">" (["410C1AF8"; " 41 0D 50 "; "NODATA"] ++ [EmptyString]))
    new_OBDService
  = fold_left (fun s r => parseOBDResponse (fun _ _ => []) (trim r) s)
      ["410C1AF8"; " 41 0D 50 "; "NODATA"] new_OBDService.
Proof.
  apply (batched_responses_decoded_in_order (fun _ _ => [])
           ["410C1AF8"; " 41 0D 50 "; "NODATA"] new_OBDService).
  - reflexivity.
  - discriminate.
  - repeat constructor.
Defined.

Section PublicationFacts.

Variable callback : listener -> OBDData -> list listener.

(** What decoding one response keeps: the live object stays the same
    object, no object is dropped, and no object but the live one
    changes. *)
Lemma parse_frame (r : string) (st : OBDService) :
  wf st ->
  let st' := parseOBDResponse callback r st in
  wf st' /\
  data st' = data st /\
  List.length (objects st) <= List.length (objects st') /\
  forall o, o < List.length (objects st) -> o <> data st ->
            object_at o st' = object_at o st.
Proof.
  intros Hwf st'. unfold st'.
  destruct (startsWith "41" (clean r)) eqn:E.
  - rewrite parse_accepted by assumption.
    set (f := switch_pid _ _).
    pose proof (wf_mutate f st Hwf) as Hm.
    destruct (notifyListeners_spec callback (mutate f st) Hm)
      as (Hc & Ho & _ & _ & Hwf' & _).
    split; [exact Hwf'|].
    split; [now injection Hc|].
    split.
    + rewrite Ho, length_app. unfold mutate; simpl.
      rewrite update_length. lia.
    + intros o Ho1 Ho2. unfold object_at. rewrite Ho.
      rewrite nth_app_left
        by (unfold mutate; simpl; now rewrite update_length).
      unfold mutate; simpl. apply nth_update_other. congruence.
  - rewrite parse_rejected by assumption. auto.
Qed.

Lemma handleResponse_frame (c : string) (st : OBDService) :
  wf st ->
  let st' := handleResponse callback c st in
  wf st' /\
  data st' = data st /\
  List.length (objects st) <= List.length (objects st') /\
  forall o, o < List.length (objects st) -> o <> data st ->
            object_at o st' = object_at o st.
Proof.
  intros Hwf. unfold handleResponse.
  set (st1 := set_responseBuffer _ st).
  assert (H1 : wf st1) by exact Hwf.
  destruct (includes ">" (responseBuffer st1)).
  2:{ simpl. repeat split; try apply Hwf; auto. }
  generalize (split ">" (responseBuffer st1)). intro lines.
  change (data st) with (data st1).
  change (objects st) with (objects st1).
  assert (G : forall s, wf s ->
            let s' := fold_left
                        (fun s line => parseOBDResponse callback (trim line) s)
                        lines s in
            wf s' /\ data s' = data s /\
            List.length (objects s) <= List.length (objects s') /\
            forall o, o < List.length (objects s) -> o <> data s ->
                      object_at o s' = object_at o s).
  { induction lines as [|l lines IH]; intros s Hs; simpl.
    - auto.
    - destruct (parse_frame (trim l) s Hs) as (A1 & A2 & A3 & A4).
      destruct (IH _ A1) as (B1 & B2 & B3 & B4).
      split; [exact B1|]. split; [congruence|]. split; [lia|].
      intros o Ho1 Ho2. rewrite B4; [now apply A4| lia | congruence]. }
  destruct (G st1 H1) as (B1 & B2 & B3 & B4).
  simpl. repeat split; try apply B1; auto.
Qed.

Lemma handle_all_frame (cs : list string) (st : OBDService) :
  wf st ->
  let st' := handle_all callback cs st in
  wf st' /\
  data st' = data st /\
  List.length (objects st) <= List.length (objects st') /\
  forall o, o < List.length (objects st) -> o <> data st ->
            object_at o st' = object_at o st.
Proof.
  unfold handle_all. revert st.
  induction cs as [|c cs IH]; intros st Hs; simpl.
  - auto.
  - destruct (handleResponse_frame c st Hs) as (A1 & A2 & A3 & A4).
    destruct (IH _ A1) as (B1 & B2 & B3 & B4).
    split; [exact B1|]. split; [congruence|]. split; [lia|].
    intros o Ho1 Ho2. rewrite B4; [now apply A4| lia | congruence].
Qed.

End PublicationFacts.

(** X5. [getData()] returns a new object with the values of the live
    snapshot, and no response handled later changes that object. *)
Theorem getData_is_a_stable_copy
    (callback : listener -> OBDData -> list listener)
    (st : OBDService) (chunks : list string) :
  wf st ->
  let '(o, st1) := getData st in
  o <> data st1 /\
  object_at o st1 = snapshot st /\
  snapshot st1 = snapshot st /\
  object_at o (handle_all callback chunks st1) = snapshot st.
Proof.
  intros [Hd Hl]. unfold getData, spread.
  set (st1 := set_objects _ st).
  assert (Hwf1 : wf st1).
  { split; unfold st1; simpl; [rewrite length_app; simpl; lia | exact Hl]. }
  assert (Ho : object_at (List.length (objects st)) st1 = snapshot st).
  { unfold object_at, st1; simpl. apply nth_app_end. }
  split; [unfold st1; simpl; lia|]. split; [exact Ho|].
  split.
  - unfold snapshot, object_at, st1; simpl. now apply nth_app_left.
  - destruct (handle_all_frame callback chunks st1 Hwf1) as (_ & _ & _ & H).
    rewrite H; [exact Ho| |].
    + unfold st1; simpl. rewrite length_app; simpl; lia.
    + unfold st1; simpl. lia.
Qed.

Lemma getData_is_a_stable_copy_witness :
  let '(o, st1) := getData new_OBDService in
  o <> data st1 /\
  object_at o st1 = snapshot new_OBDService /\
  snapshot st1 = snapshot new_OBDService /\
  object_at o (handle_all (fun _ _ => []) ["41 0D"; " 50>"; "410C1AF8>"] st1)
  = snapshot new_OBDService.
Proof.
  apply (getData_is_a_stable_copy (fun _ _ => []) new_OBDService
           ["41 0D"; " 50>"; "410C1AF8>"]).
  split; simpl; lia.
Defined.

(** X6. The object that a publication hands to a subscriber is not the
    live snapshot, and no response handled later changes it: it keeps the
    values published. *)
Theorem published_copy_is_stable
    (callback : listener -> OBDData -> list listener)
    (st : OBDService) (l : listener) (chunks : list string) :
  wf st ->
  In l (subscribed st) ->
  exists o,
    In (Delivered l o)
       (since (List.length (trace st)) (notifyListeners callback st)) /\
    o <> data (notifyListeners callback st) /\
    object_at o (handle_all callback chunks (notifyListeners callback st))
    = snapshot st.
Proof.
  intros Hwf Hl.
  destruct (notifyListeners_delivers callback st l Hwf Hl) as (o & H1 & H2 & H3).
  destruct (notifyListeners_spec callback st Hwf) as (Hc & Ho & _ & _ & Hwf' & _).
  assert (Hd : data (notifyListeners callback st) = data st) by now injection Hc.
  assert (Hlt : o < List.length (objects (notifyListeners callback st))).
  { destruct (Nat.lt_ge_cases o (List.length (objects (notifyListeners callback st))))
      as [H|H]; [exact H|].
    exfalso. unfold object_at in H3. rewrite nth_overflow in H3 by exact H.
    destruct (deliveries_In (subscribed st) l (List.length (objects st)) Hl)
      as (j & Hj & _).
    rewrite Ho, length_app, repeat_length in H.
    (* every delivery of the publication is below the new length *)
    clear H3.
    assert (Hin : In (Delivered l o)
                    (deliveries (subscribed st) (List.length (objects st)))).
    { destruct (notifyListeners_spec callback st Hwf) as (_ & _ & Ht & _).
      now rewrite (since_app _ _ _ Ht) in H1. }
    revert Hin H. generalize (List.length (objects st)) as n.
    generalize (subscribed st) as ls. clear.
    induction ls as [|x r IH]; intros n Hin H; simpl in *; [contradiction|].
    destruct Hin as [E|Hin].
    - injection E as _ <-. lia.
    - apply (IH (S n) Hin). lia. }
  exists o. split; [exact H1|]. split.
  - rewrite Hd. destruct Hwf as [Hw _]. lia.
  - destruct (handle_all_frame callback chunks _ Hwf') as (_ & _ & _ & H).
    rewrite H; [exact H3|exact Hlt|].
    rewrite Hd. destruct Hwf as [Hw _]. lia.
Qed.

Lemma published_copy_is_stable_witness :
  let cb := fun (_ : listener) (_ : OBDData) => @nil listener in
  let st := snd (subscribe cb 5 new_OBDService) in
  exists o,
    In (Delivered 5 o) (since (List.length (trace st)) (notifyListeners cb st)) /\
    o <> data (notifyListeners cb st) /\
    object_at o (handle_all cb ["410D50>"] (notifyListeners cb st))
    = snapshot st.
Proof.
  intros cb st.
  apply (published_copy_is_stable cb st 5 ["410D50>"]).
  - split; vm_compute; lia.
  - vm_compute; auto.
Defined.

(** X7. A response is published exactly when, cleaned, it starts with
    [41]: then every subscriber is called once, in the order of
    registration, also when the PID is unknown or the payload too short
    and nothing was decoded; any other response calls nobody. *)
Theorem publication_follows_the_prefix
    (callback : listener -> OBDData -> list listener)
    (r : string) (st : OBDService) :
  wf st ->
  since (List.length (trace st)) (parseOBDResponse callback r st)
  = if startsWith "41" (clean r)
    then deliveries (subscribed st) (List.length (objects st))
    else [].
Proof.
  intro Hwf. destruct (startsWith "41" (clean r)) eqn:E.
  - rewrite parse_accepted by assumption.
    set (f := switch_pid _ _).
    destruct (notifyListeners_spec callback (mutate f st) (wf_mutate f st Hwf))
      as (_ & _ & Ht & _).
    change (trace (mutate f st)) with (trace st) in Ht.
    change (subscribed (mutate f st)) with (subscribed st) in Ht.
    rewrite (since_app _ _ _ Ht).
    unfold mutate; simpl. now rewrite update_length.
  - rewrite parse_rejected by assumption.
    unfold since. apply skipn_all.
Qed.

Lemma publication_follows_the_prefix_witness :
  let cb := fun (_ : listener) (_ : OBDData) => @nil listener in
  let st := snd (subscribe cb 2 (snd (subscribe cb 1 new_OBDService))) in
  since (List.length (trace st)) (parseOBDResponse cb "41FF" st)
  = if startsWith "41" (clean "41FF")
    then deliveries (subscribed st) (List.length (objects st))
    else [].
Proof.
  intros cb st.
  apply (publication_follows_the_prefix cb "41FF" st).
  split; vm_compute; lia.
Defined.

(** X8. No response changes the connection status or the device name of
    the snapshot: only [connectToDevice] and [disconnect] do. *)
Theorem responses_keep_the_status
    (callback : listener -> OBDData -> list listener)
    (chunks : list string) (st : OBDService) :
  wf st ->
  isConnected (snapshot (handle_all callback chunks st))
  = isConnected (snapshot st) /\
  deviceName (snapshot (handle_all callback chunks st))
  = deviceName (snapshot st).
Proof.
  assert (P : forall r s, wf s ->
            isConnected (snapshot (parseOBDResponse callback r s))
            = isConnected (snapshot s) /\
            deviceName (snapshot (parseOBDResponse callback r s))
            = deviceName (snapshot s)).
  { intros r s Hs. rewrite parse_snapshot by assumption.
    destruct (startsWith "41" (clean r)); [apply switch_pid_status|auto]. }
  assert (L : forall lines s, wf s ->
            let s' := fold_left
                        (fun s line => parseOBDResponse callback (trim line) s)
                        lines s in
            wf s' /\
            isConnected (snapshot s') = isConnected (snapshot s) /\
            deviceName (snapshot s') = deviceName (snapshot s)).
  { induction lines as [|l lines IH]; intros s Hs; simpl; [auto|].
    destruct (P (trim l) s Hs) as [A1 A2].
    destruct (IH _ (parse_wf callback (trim l) s Hs)) as (B0 & B1 & B2).
    split; [exact B0|]. split; congruence. }
  assert (H : forall c s, wf s ->
            wf (handleResponse callback c s) /\
            isConnected (snapshot (handleResponse callback c s))
            = isConnected (snapshot s) /\
            deviceName (snapshot (handleResponse callback c s))
            = deviceName (snapshot s)).
  { intros c s Hs. unfold handleResponse.
    set (s1 := set_responseBuffer _ s).
    destruct (includes ">" (responseBuffer s1)); [|auto].
    destruct (L (split ">" (responseBuffer s1)) s1 Hs) as (B0 & B1 & B2).
    split; [exact B0|]. split; [exact B1|exact B2]. }
  unfold handle_all. revert st.
  induction chunks as [|c cs IH]; intros st Hwf; simpl; [auto|].
  destruct (H c st Hwf) as (A0 & A1 & A2).
  destruct (IH _ A0) as [B1 B2]. split; congruence.
Qed.

Lemma responses_keep_the_status_witness :
  let st := mutate (set_status true "OBDII") new_OBDService in
  isConnected (snapshot (handle_all (fun _ _ => []) ["410C1AF8>4105"; "7B>"] st))
  = isConnected (snapshot st) /\
  deviceName (snapshot (handle_all (fun _ _ => []) ["410C1AF8>4105"; "7B>"] st))
  = deviceName (snapshot st).
Proof.
  intro st.
  apply (responses_keep_the_status (fun _ _ => []) ["410C1AF8>4105"; "7B>"] st).
  split; vm_compute; lia.
Defined.

(* ================================================================== *)
(** ** Further properties of connection *)
(* ================================================================== *)

Lemma quiet_refl (st : OBDService) : quiet st st.
Proof.
  unfold quiet. repeat split. exists []. now rewrite app_nil_r.
Qed.

Lemma quiet_trans (a b c : OBDService) : quiet a b -> quiet b c -> quiet a c.
Proof.
  intros (A1 & A2 & A3 & A4 & A5 & A6 & A7 & A8 & [e1 A9])
         (B1 & B2 & B3 & B4 & B5 & B6 & B7 & B8 & [e2 B9]).
  unfold quiet. repeat split; try congruence.
  exists (e1 ++ e2). rewrite B9, A9. now rewrite app_assoc.
Qed.

Lemma quiet_log (e : event) (st : OBDService) : quiet st (log e st).
Proof. unfold quiet; simpl. repeat split. now exists [e]. Qed.

Lemma quiet_set_device (d : option Device) (st : OBDService) :
  quiet st (set_device d st).
Proof.
  unfold quiet; simpl. repeat split. exists []. now rewrite app_nil_r.
Qed.

Lemma quiet_set_writeCharacteristic (c : option Characteristic)
    (st : OBDService) : quiet st (set_writeCharacteristic c st).
Proof.
  unfold quiet; simpl. repeat split. exists []. now rewrite app_nil_r.
Qed.

Lemma quiet_sendCommand (c : string) (st : OBDService) :
  quiet st (state_of (sendCommand c st)).
Proof.
  unfold sendCommand. destruct (writeCharacteristic st) as [ch|].
  - destruct (writeWithResponse ch _); apply quiet_log.
  - apply quiet_refl.
Qed.

Lemma quiet_bind (st : OBDService) (r : outcome)
    (k : OBDService -> outcome) :
  quiet st (state_of r) ->
  (forall s, quiet s (state_of (k s))) ->
  quiet st (state_of (r >>= k)).
Proof.
  intros H K. destruct r as [s|e s]; simpl in *; [|exact H].
  apply quiet_trans with s; auto.
Qed.

Lemma quiet_initializeAdapter (st : OBDService) :
  quiet st (state_of (initializeAdapter st)).
Proof.
  unfold initializeAdapter.
  repeat (apply quiet_bind; [|intro; first [apply quiet_sendCommand
                                            | apply quiet_log]]).
  apply quiet_sendCommand.
Qed.

Lemma quiet_visit_characteristics (cs : list Characteristic) (st : OBDService) :
  quiet st (visit_characteristics cs st).
Proof.
  unfold visit_characteristics. revert st.
  induction cs as [|c cs IH]; intro st; simpl; [apply quiet_refl|].
  eapply quiet_trans; [|apply IH].
  destruct (isWritableWithResponse c || isWritableWithoutResponse c)%bool;
    destruct (isNotifiable c);
    repeat first [apply quiet_refl | apply quiet_log
                 | eapply quiet_trans; [apply quiet_set_writeCharacteristic|]].
Qed.

Lemma quiet_visit_services (svcs : list (error + list Characteristic))
    (st : OBDService) :
  quiet st (state_of (visit_services svcs st)).
Proof.
  revert st. induction svcs as [|[e|cs] r IH]; intro st; simpl;
    try apply quiet_refl.
  eapply quiet_trans; [apply quiet_visit_characteristics|apply IH].
Qed.


(** X9. When [connectToDevice] throws, whatever the step that failed, the
    snapshot is as before (not marked connected), no polling timer has
    been started, and the error thrown is the last thing logged; the
    device is kept in [this.device] when its [connect()] had resolved. *)
Theorem failed_connection_leaves_the_session
    (callback : listener -> OBDData -> list listener)
    (dev : Device) (st st' : OBDService) (e : error) :
  connectToDevice callback dev st = Throw e st' ->
  snapshot st' = snapshot st /\
  pollingInterval st' = pollingInterval st /\
  timers st' = timers st /\
  (exists evs, trace st' = trace st ++ evs ++ [Logged e]) /\
  device st' = match connect dev with
               | None => Some dev
               | Some _ => device st
               end.
Proof.
  unfold connectToDevice.
  destruct (connect_body callback dev st) as [s|e0 s] eqn:E; [discriminate|].
  intro H. injection H as <- <-.
  assert (Q : quiet st s /\
              device s = match connect dev with
                         | None => Some dev
                         | Some _ => device st
                         end).
  { unfold connect_body in E.
    destruct (connect dev) as [e1|].
    { injection E as _ <-. split; [apply quiet_refl|reflexivity]. }
    set (st1 := set_device (Some dev) (log (Connected (name dev)) st)) in E.
    assert (Q1 : quiet st st1).
    { eapply quiet_trans; [apply quiet_log|apply quiet_set_device]. }
    destruct (discoverAllServicesAndCharacteristics dev) as [e1|].
    { injection E as _ <-. split; [exact Q1|reflexivity]. }
    destruct (services dev) as [e1|svcs].
    { injection E as _ <-. split; [exact Q1|reflexivity]. }
    pose proof (quiet_visit_services svcs st1) as Q2.
    assert (D2 : device (state_of (visit_services svcs st1)) = Some dev).
    { clear. generalize st1 (eq_refl : device st1 = Some dev).
      induction svcs as [|[e|cs] r IH]; intros s Hs; simpl; auto.
      apply IH. clear IH. unfold visit_characteristics.
      revert s Hs. induction cs as [|c cs IHc]; intros s Hs; simpl; auto.
      apply IHc.
      destruct (isWritableWithResponse c || isWritableWithoutResponse c)%bool;
        destruct (isNotifiable c); exact Hs. }
    destruct (visit_services svcs st1) as [s2|e2 s2].
    2:{ injection E as _ <-. split; [eapply quiet_trans; eauto|exact D2]. }
    cbn [bind state_of] in *.
    pose proof (quiet_initializeAdapter s2) as Q3.
    assert (D3 : device (state_of (initializeAdapter s2)) = Some dev).
    { rewrite <- D2. clear.
      unfold initializeAdapter.
      assert (S : forall c x, device (state_of (sendCommand c x)) = device x).
      { intros c x. unfold sendCommand.
        destruct (writeCharacteristic x) as [ch|]; [|reflexivity].
        destruct (writeWithResponse ch _); reflexivity. }
      assert (B : forall r k x,
                 device (state_of r) = device x ->
                 (forall y, device (state_of (k y)) = device y) ->
                 device (state_of (r >>= k)) = device x).
      { intros r k x H K. destruct r; simpl in *; [now rewrite K|exact H]. }
      repeat (apply B; [|intro; first [apply S|reflexivity]]).
      apply S. }
    destruct (initializeAdapter s2) as [s3|e3 s3]; [discriminate|].
    cbn [bind state_of] in *. injection E as _ <-.
    split; [|exact D3].
    eapply quiet_trans; [exact Q1|]. eapply quiet_trans; eauto. }
  destruct Q as [(A1 & A2 & A3 & A4 & A5 & A6 & A7 & A8 & [evs A9]) D].
  split; [unfold snapshot, object_at; simpl; now rewrite A1, A2|].
  split; [exact A5|]. split; [exact A6|].
  split; [|exact D].
  exists evs. simpl. rewrite A9. now rewrite app_assoc.
Qed.

Lemma failed_connection_leaves_the_session_witness :
  let cb := fun (_ : listener) (_ : OBDData) => @nil listener in
  let dev := mkDevice (Some "ELM327") None None (inr [inr [refusing_ATS0]]) None in
  let r := connectToDevice cb dev new_OBDService in
  snapshot (state_of r) = snapshot new_OBDService /\
  pollingInterval (state_of r) = pollingInterval new_OBDService /\
  timers (state_of r) = timers new_OBDService /\
  (exists evs,
     trace (state_of r) = trace new_OBDService ++ evs ++ [Logged "Write failed"]) /\
  device (state_of r) = match connect dev with
                        | None => Some dev
                        | Some _ => device new_OBDService
                        end.
Proof.
  intros cb dev r.
  apply (failed_connection_leaves_the_session cb dev new_OBDService
           (state_of r) "Write failed").
  reflexivity.
Defined.

Lemma set_status_spec (b : bool) (n : string) (d : OBDData) :
  isConnected (set_status b n d) = b /\
  deviceName (set_status b n d) = n /\
  forall f, get f (set_status b n d) = get f d.
Proof.
  destruct d. split; [reflexivity|]. split; [reflexivity|].
  intro f; destruct f; reflexivity.
Qed.

(** X10. When [connectToDevice] succeeds, the snapshot is marked connected
    under the name of the device ([Unknown Device] without one) with its
    numeric fields as they were, every subscriber is called with a
    connected snapshot, and one polling timer is started on the fixed
    priority and secondary queues, from their first elements. *)
Theorem successful_connection
    (callback : listener -> OBDData -> list listener)
    (dev : Device) (st st' : OBDService) :
  wf st ->
  connectToDevice callback dev st = Ok st' ->
  isConnected (snapshot st') = true /\
  deviceName (snapshot st') = display_name (name dev) /\
  (forall f, get f (snapshot st') = get f (snapshot st)) /\
  device st' = Some dev /\
  pollingInterval st' = Some (nextTimer st) /\
  timers st'
  = timers st ++
    [(nextTimer st, mkPoller PRIORITY_PIDS SECONDARY_PIDS (Some 0) (Some 0) 0)] /\
  forall l, In l (subscribed st) ->
    exists o, In (Delivered l o) (since (List.length (trace st)) st') /\
              isConnected (object_at o st') = true.
Proof.
  intros Hwf. unfold connectToDevice.
  destruct (connect_body callback dev st) as [s|e0 s] eqn:E; [|discriminate].
  intro H. injection H as <-.
  unfold connect_body in E.
  destruct (connect dev) as [e1|]; [discriminate|].
  set (st1 := set_device (Some dev) (log (Connected (name dev)) st)) in E.
  assert (Q1 : quiet st st1).
  { eapply quiet_trans; [apply quiet_log|apply quiet_set_device]. }
  destruct (discoverAllServicesAndCharacteristics dev) as [e1|]; [discriminate|].
  destruct (services dev) as [e1|svcs]; [discriminate|].
  pose proof (quiet_visit_services svcs st1) as Q2.
  assert (D2 : device (state_of (visit_services svcs st1)) = Some dev).
  { clear. generalize st1 (eq_refl : device st1 = Some dev).
    induction svcs as [|[e|cs] r IH]; intros s Hs; simpl; auto.
    apply IH. clear IH. unfold visit_characteristics.
    revert s Hs. induction cs as [|c cs IHc]; intros s Hs; simpl; auto.
    apply IHc.
    destruct (isWritableWithResponse c || isWritableWithoutResponse c)%bool;
      destruct (isNotifiable c); exact Hs. }
  destruct (visit_services svcs st1) as [s2|e2 s2]; [|discriminate].
  cbn [bind state_of] in *.
  pose proof (quiet_initializeAdapter s2) as Q3.
  assert (D3 : device (state_of (initializeAdapter s2)) = Some dev).
  { rewrite <- D2. clear.
    unfold initializeAdapter.
    assert (S : forall c x, device (state_of (sendCommand c x)) = device x).
    { intros c x. unfold sendCommand.
      destruct (writeCharacteristic x) as [ch|]; [|reflexivity].
      destruct (writeWithResponse ch _); reflexivity. }
    assert (B : forall r k x,
               device (state_of r) = device x ->
               (forall y, device (state_of (k y)) = device y) ->
               device (state_of (r >>= k)) = device x).
    { intros r k x H K. destruct r; simpl in *; [now rewrite K|exact H]. }
    repeat (apply B; [|intro; first [apply S|reflexivity]]).
    apply S. }
  destruct (initializeAdapter s2) as [s3|e3 s3]; [|discriminate].
  cbn [bind state_of] in *. injection E as <-.
  assert (Q : quiet st s3).
  { eapply quiet_trans; [exact Q1|]. eapply quiet_trans; eauto. }
  destruct Q as (A1 & A2 & A3 & A4 & A5 & A6 & A7 & A8 & [evs A9]).
  assert (Hwf3 : wf s3).
  { destruct Hwf as [W1 W2]. split; [now rewrite A1, A2|now rewrite A3, A4]. }
  set (f := set_status true (display_name (name dev))).
  pose proof (wf_mutate f s3 Hwf3) as HwfM.
  destruct (notifyListeners_spec callback (mutate f s3) HwfM)
    as (Hc & Ho & Ht & _ & _ & _).
  pose proof (notifyListeners_snapshot callback (mutate f s3) HwfM) as Hs.
  rewrite snapshot_mutate in Hs by assumption.
  assert (S3 : snapshot s3 = snapshot st).
  { unfold snapshot, object_at. now rewrite A1, A2. }
  destruct (set_status_spec true (display_name (name dev)) (snapshot s3))
    as (G1 & G2 & G3).
  set (sN := notifyListeners callback (mutate f s3)) in *.
  assert (SP : snapshot (startPolling sN) = f (snapshot s3)) by exact Hs.
  assert (Cdev : device sN = device s3) by now injection Hc.
  assert (Ctim : timers sN = timers s3) by now injection Hc.
  assert (Cnt : nextTimer sN = nextTimer s3) by now injection Hc.
  clear Hc.
  split; [rewrite SP; exact G1|]. split; [rewrite SP; exact G2|].
  split; [intro g; rewrite SP, <- S3; apply G3|].
  split; [unfold startPolling, startPollingWith; simpl; now rewrite Cdev|].
  split; [unfold startPolling, startPollingWith; simpl;
          now rewrite Cnt, A7|].
  split.
  { unfold startPolling, startPollingWith; simpl.
    now rewrite Ctim, Cnt, A6, A7. }
  intros l Hl.
  assert (Hl3 : In l (subscribed (mutate f s3))).
  { unfold subscribed, array_at, mutate in *; simpl. now rewrite A3, A4. }
  destruct (notifyListeners_delivers callback (mutate f s3) l HwfM Hl3)
    as (o & H1 & _ & H3).
  exists o. split.
  - assert (Tr : trace (startPolling sN)
                 = trace st ++ (evs ++ deliveries (subscribed (mutate f s3))
                                         (List.length (objects (mutate f s3))))).
    { unfold startPolling, startPollingWith; simpl. rewrite Ht.
      unfold mutate; simpl. rewrite A9. now rewrite app_assoc. }
    rewrite (since_app _ _ _ Tr). apply in_or_app. right.
    fold sN in H1. now rewrite (since_app _ _ _ Ht) in H1.
  - change (object_at o (startPolling sN)) with (object_at o sN).
    unfold sN. rewrite H3. rewrite snapshot_mutate by assumption. exact G1.
Qed.

Lemma successful_connection_witness :
  let cb := fun (_ : listener) (_ : OBDData) => @nil listener in
  let st := snd (subscribe cb 4 new_OBDService) in
  let st' := state_of (connectToDevice cb adapter st) in
  isConnected (snapshot st') = true /\
  deviceName (snapshot st') = display_name (name adapter) /\
  (forall f, get f (snapshot st') = get f (snapshot st)) /\
  device st' = Some adapter /\
  pollingInterval st' = Some (nextTimer st) /\
  timers st'
  = timers st ++
    [(nextTimer st, mkPoller PRIORITY_PIDS SECONDARY_PIDS (Some 0) (Some 0) 0)] /\
  forall l, In l (subscribed st) ->
    exists o, In (Delivered l o) (since (List.length (trace st)) st') /\
              isConnected (object_at o st') = true.
Proof.
  intros cb st st'.
  apply (successful_connection cb adapter st st').
  - split; vm_compute; lia.
  - vm_compute. reflexivity.
Defined.

Lemma find_last (A : Type) (p : A -> bool) (l : list A) (x : A) :
  find p (l ++ [x])
  = match find p l with
    | Some y => Some y
    | None => if p x then Some x else None
    end.
Proof.
  induction l as [|y r IH]; simpl; [reflexivity|].
  destruct (p y); [reflexivity|exact IH].
Qed.

Lemma visit_characteristics_choice (cs : list Characteristic) (st : OBDService) :
  writeCharacteristic (visit_characteristics cs st)
  = match find writable (rev cs) with
    | Some c => Some c
    | None => writeCharacteristic st
    end.
Proof.
  unfold visit_characteristics. revert st.
  induction cs as [|c cs IH]; intro st; [reflexivity|].
  simpl fold_left. rewrite IH. simpl rev. rewrite find_last.
  destruct (find writable (rev cs)); [reflexivity|].
  unfold writable.
  destruct (isWritableWithResponse c || isWritableWithoutResponse c)%bool;
    destruct (isNotifiable c); reflexivity.
Qed.

Lemma visit_services_choice
    (svcs : list (error + list Characteristic)) (st st' : OBDService) :
  visit_services svcs st = Ok st' ->
  writeCharacteristic st'
  = match find writable (rev (all_characteristics svcs)) with
    | Some c => Some c
    | None => writeCharacteristic st
    end.
Proof.
  revert st. induction svcs as [|[e|cs] r IH]; intros st H; simpl in *.
  - now injection H as <-.
  - discriminate.
  - rewrite (IH _ H). rewrite rev_app_distr.
    rewrite visit_characteristics_choice.
    generalize (rev (all_characteristics r)) as l.
    induction l as [|y l IHl]; simpl; [reflexivity|].
    destruct (writable y); [reflexivity|exact IHl].
Qed.

(** X11. Of the characteristics of all the services, the one written to
    is the last that is writable, with or without response; without any,
    the write characteristic stays what it was. *)
Theorem last_writable_characteristic_is_used
    (svcs : list (error + list Characteristic)) (st st' : OBDService) :
  visit_services svcs st = Ok st' ->
  writeCharacteristic st'
  = match find writable (rev (all_characteristics svcs)) with
    | Some c => Some c
    | None => writeCharacteristic st
    end.
Proof. exact (visit_services_choice svcs st st'). Qed.

Lemma last_writable_characteristic_is_used_witness :
  writeCharacteristic
    (state_of (visit_services [inr [accepting; duplex]; inr [refusing_ATS0]]
                 new_OBDService))
  = match find writable
            (rev (all_characteristics
                    [inr [accepting; duplex]; inr [refusing_ATS0]])) with
    | Some c => Some c
    | None => writeCharacteristic new_OBDService
    end.
Proof.
  apply (last_writable_characteristic_is_used
           [inr [accepting; duplex]; inr [refusing_ATS0]] new_OBDService).
  reflexivity.
Defined.

Lemma written_app (a b : list event) :
  written (a ++ b) = written a ++ written b.
Proof.
  induction a as [|e a IH]; simpl; [reflexivity|].
  destruct e; simpl; now rewrite IH.
Qed.

Lemma written_deliveries (ls : list listener) (o : loc) :
  written (deliveries ls o) = [].
Proof.
  revert o; induction ls as [|l r IH]; intro o; simpl; auto.
Qed.

Lemma visit_characteristics_no_write (cs : list Characteristic)
    (st : OBDService) :
  written (trace (visit_characteristics cs st)) = written (trace st).
Proof.
  unfold visit_characteristics. revert st.
  induction cs as [|c cs IH]; intro st; [reflexivity|].
  simpl fold_left. rewrite IH.
  destruct (isWritableWithResponse c || isWritableWithoutResponse c)%bool;
    destruct (isNotifiable c); simpl; rewrite ?written_app; simpl;
    now rewrite ?app_nil_r.
Qed.

Lemma sendCommand_none (c : string) (st : OBDService) :
  writeCharacteristic st = None -> sendCommand c st = Ok st.
Proof. unfold sendCommand. now intros ->. Qed.

(** X12. A device without any writable characteristic is connected all
    the same when the service held no write characteristic: every command
    of the initialization is skipped in silence and nothing is written. *)
Theorem connection_without_write_characteristic
    (callback : listener -> OBDData -> list listener)
    (dev : Device) (svcs : list (error + list Characteristic))
    (st : OBDService) :
  wf st ->
  writeCharacteristic st = None ->
  connect dev = None ->
  discoverAllServicesAndCharacteristics dev = None ->
  services dev = inr svcs ->
  Forall (fun s => exists cs, s = inr cs) svcs ->
  find writable (rev (all_characteristics svcs)) = None ->
  exists st',
    connectToDevice callback dev st = Ok st' /\
    writeCharacteristic st' = None /\
    written (trace st') = written (trace st) /\
    isConnected (snapshot st') = true.
Proof.
  intros Hwf Hw Hc Hd Hs Hall Hnone.
  unfold connectToDevice, connect_body. rewrite Hc, Hd, Hs.
  set (st1 := set_device (Some dev) (log (Connected (name dev)) st)).
  assert (V : exists s2, visit_services svcs st1 = Ok s2 /\
                         written (trace s2) = written (trace st1)).
  { clear - Hall. generalize st1. clear st1.
    induction Hall as [|s r [cs ->] _ IH]; intro s0.
    - exists s0. auto.
    - simpl. destruct (IH (visit_characteristics cs s0)) as (s2 & E & W).
      exists s2. split; [exact E|].
      now rewrite W, visit_characteristics_no_write. }
  destruct V as (s2 & E2 & W2). rewrite E2. cbn [bind].
  pose proof (visit_services_choice svcs st1 s2 E2) as L.
  rewrite Hnone in L. change (writeCharacteristic st1)
    with (writeCharacteristic st) in L. rewrite Hw in L.
  assert (I : initializeAdapter s2 = Ok (log (Delay 1000) s2)).
  { unfold initializeAdapter.
    repeat (rewrite sendCommand_none by exact L; cbn [bind delay]).
    reflexivity. }
  rewrite I. cbn [bind].
  set (s3 := log (Delay 1000) s2).
  pose proof (quiet_visit_services svcs st1) as Q2. rewrite E2 in Q2.
  simpl in Q2.
  destruct Q2 as (A1 & A2 & A3 & A4 & _).
  assert (Hwf3 : wf s3).
  { destruct Hwf as [X1 X2]. split; unfold s3; simpl.
    - now rewrite A1, A2.
    - now rewrite A3, A4. }
  set (f := set_status true (display_name (name dev))).
  pose proof (wf_mutate f s3 Hwf3) as HwfM.
  destruct (notifyListeners_spec callback (mutate f s3) HwfM)
    as (C & _ & Ht & _).
  eexists. split; [reflexivity|].
  split; [|split].
  - unfold startPolling, startPollingWith; simpl.
    assert (writeCharacteristic (notifyListeners callback (mutate f s3))
            = writeCharacteristic (mutate f s3)) as -> by now injection C.
    exact L.
  - unfold startPolling, startPollingWith; simpl. rewrite Ht.
    rewrite written_app, written_deliveries, app_nil_r.
    unfold mutate, s3; simpl. rewrite written_app; simpl.
    rewrite app_nil_r, W2. unfold st1; simpl.
    rewrite written_app; simpl. now rewrite app_nil_r.
  - change (snapshot (startPolling (notifyListeners callback (mutate f s3))))
      with (snapshot (notifyListeners callback (mutate f s3))).
    rewrite notifyListeners_snapshot, snapshot_mutate by assumption.
    apply set_status_spec.
Qed.

Lemma connection_without_write_characteristic_witness :
  let cb := fun (_ : listener) (_ : OBDData) => @nil listener in
  let notify_only := mkCharacteristic "fff1" false false true (fun _ => None) in
  let dev := mkDevice None None None (inr [inr [notify_only]]) None in
  exists st',
    connectToDevice cb dev new_OBDService = Ok st' /\
    writeCharacteristic st' = None /\
    written (trace st') = written (trace new_OBDService) /\
    isConnected (snapshot st') = true.
Proof.
  intros cb notify_only dev.
  apply (connection_without_write_characteristic cb dev
           [inr [notify_only]] new_OBDService); try reflexivity.
  - split; simpl; lia.
  - repeat constructor. now exists [notify_only].
Defined.

(* ================================================================== *)
(** ** Further properties of subscription, scanning and decoding *)
(* ================================================================== *)

(** X13. Subscribing and then calling the handle returned: the listener
    is subscribed no more, however many times it had been registered, and
    the others are those subscribed before, less the ones that the
    listener unsubscribed itself when it was called with the live
    snapshot. *)
Theorem subscribe_then_unsubscribe
    (callback : listener -> OBDData -> list listener)
    (l x : listener) (st : OBDService) :
  wf st ->
  let '(handle, st1) := subscribe callback l st in
  In x (subscribed (handle st1)) <->
  x <> l /\ In x (subscribed st) /\ ~ In x (callback l (snapshot st)).
Proof.
  intros [Hd Hl]. unfold subscribe.
  set (st0 := set_arrays _ st).
  assert (S0 : subscribed st0 = subscribed st ++ [l]).
  { unfold subscribed, array_at, st0; simpl.
    now rewrite nth_update_same by exact Hl. }
  assert (O0 : object_at (data st0) st0 = snapshot st) by reflexivity.
  rewrite unsubscribe_subscribed, call_subscribed, S0, O0, in_app_iff.
  simpl. intuition congruence.
Qed.

Lemma subscribe_then_unsubscribe_witness :
  let cb := fun (_ : listener) (_ : OBDData) => @nil listener in
  let st := snd (subscribe cb 3 (snd (subscribe cb 9 new_OBDService))) in
  let '(handle, st1) := subscribe cb 3 st in
  In 9 (subscribed (handle st1)) <->
  9 <> 3 /\ In 9 (subscribed st) /\ ~ In 9 (cb 3 (snapshot st)).
Proof.
  intros cb st.
  apply (subscribe_then_unsubscribe cb 3 9 st).
  split; vm_compute; lia.
Defined.

Lemma prefix_app (p s : string) :
  String.prefix p s = true <-> exists post, s = (p ++ post)%string.
Proof.
  revert s; induction p as [|c p IH]; intro s.
  - split; [intros _; now exists s|intros _; destruct s; reflexivity].
  - destruct s as [|d s]; simpl.
    + split; [discriminate|intros [post H]; discriminate].
    + destruct (ascii_dec c d) as [<-|Hn].
      * rewrite IH. split; intros [post H]; exists post; congruence.
      * split; [discriminate|intros [post H]; congruence].
Qed.

Lemma includesStr_eq (p s : string) :
  includesStr p s
  = if String.prefix p s then true
    else match s with
         | EmptyString => false
         | String _ r => includesStr p r
         end.
Proof. destruct s; reflexivity. Qed.

Lemma includesStr_spec (p s : string) :
  includesStr p s = true <-> exists pre post, s = (pre ++ p ++ post)%string.
Proof.
  induction s as [|c s IH]; rewrite includesStr_eq.
  - destruct (String.prefix p EmptyString) eqn:E.
    + apply prefix_app in E as [post E]. split; [|auto].
      intros _. now exists EmptyString, post.
    + split; [discriminate|]. intros (pre & post & H).
      destruct pre; [|discriminate]. simpl in H.
      assert (String.prefix p EmptyString = true)
        by (apply prefix_app; now exists post).
      congruence.
  - destruct (String.prefix p (String c s)) eqn:E.
    + apply prefix_app in E as [post E]. split; [|auto].
      intros _. now exists EmptyString, post.
    + rewrite IH. split.
      * intros (pre & post & ->). now exists (String c pre), post.
      * intros (pre & post & H). destruct pre as [|d pre].
        -- simpl in H.
           assert (String.prefix p (String c s) = true)
             by (apply prefix_app; now exists post).
           congruence.
        -- injection H as _ ->. now exists pre, post.
Qed.

(** X14. A scanned device is reported exactly when its name, put in upper
    case, contains OBD, ELM, VGATE, VEEPEAK or BAFX; a device without a
    name is never reported. *)
Theorem scan_reports_adapter_names (name : option string) :
  reported name = true <->
  exists n kw pre post,
    name = Some n /\ In kw ADAPTER_NAMES /\
    toUpperCase n = (pre ++ kw ++ post)%string.
Proof.
  unfold reported. destruct name as [n|].
  2:{ split; [discriminate|]. intros (n & _ & _ & _ & H & _). discriminate. }
  assert (A : isAdapterName n = true <->
              exists kw pre post, In kw ADAPTER_NAMES /\
                toUpperCase n = (pre ++ kw ++ post)%string).
  { unfold isAdapterName, ADAPTER_NAMES.
    rewrite !orb_true_iff, !includesStr_spec. simpl. split.
    - intros [[[[H|H]|H]|H]|H]; destruct H as (pre & post & H).
      + exists "OBD", pre, post; auto.
      + exists "ELM", pre, post; auto.
      + exists "VGATE", pre, post; auto 6.
      + exists "VEEPEAK", pre, post; auto 7.
      + exists "BAFX", pre, post; auto 8.
    - intros (kw & pre & post & H & E).
      destruct H as [<-|[<-|[<-|[<-|[<-|[]]]]]];
        [ left; left; left; left | left; left; left; right
        | left; left; right | left; right | right ];
        exists pre, post; exact E. }
  rewrite andb_true_iff, A. split.
  - intros [_ (kw & pre & post & H)]. now exists n, kw, pre, post.
  - intros (n' & kw & pre & post & E & H). injection E as <-.
    split; [|now exists kw, pre, post].
    destruct n; [|reflexivity]. exfalso.
    destruct H as [H E]. simpl in E.
    destruct pre; [|discriminate]. simpl in E.
    destruct H as [<-|[<-|[<-|[<-|[<-|[]]]]]]; discriminate.
Qed.

Lemma byte_Z_range (a : byte) : (0 <= byte_Z a < 256)%Z.
Proof. destruct a; vm_compute; (split; [discriminate|reflexivity]). Qed.

(** X15. For every payload byte the floating-point arithmetic of the
    single-byte decoders gives the exact integer: the percentage is
    [(200*A + 255) div 510], the rounding of [A*100/255] to the nearest
    integer, and lies between 0 and 100; the temperature is [A - 40], the
    torque [A - 125], the fuel pressure [3*A]; the EGR error is
    [(200*(A-128) + 128) div 256], between -100 and 99. *)
Theorem single_byte_decoders_are_exact (a : byte) :
  parsePercent (hex2 a) = of_Z ((200 * byte_Z a + 255) / 510) /\
  (0 <= (200 * byte_Z a + 255) / 510 <= 100)%Z /\
  parseTemp (hex2 a) = of_Z (byte_Z a - 40) /\
  (parseInt16 (hex2 a) - 125)%float = of_Z (byte_Z a - 125) /\
  (parseInt16 (hex2 a) * 3)%float = of_Z (3 * byte_Z a) /\
  Math_round ((parseInt16 (hex2 a) - 128) * 100 / 128)%float
  = of_Z ((200 * (byte_Z a - 128) + 128) / 256) /\
  (-100 <= (200 * (byte_Z a - 128) + 128) / 256 <= 99)%Z.
Proof.
  pose proof (byte_Z_range a) as R.
  split; [destruct a; vm_compute; reflexivity|].
  split; [split; [apply Z.div_pos; lia
                 |apply Z.lt_succ_r; apply Z.div_lt_upper_bound; lia]|].
  split; [destruct a; vm_compute; reflexivity|].
  split; [destruct a; vm_compute; reflexivity|].
  split; [destruct a; vm_compute; reflexivity|].
  split; [destruct a; vm_compute; reflexivity|].
  split; [apply Z.div_le_lower_bound; lia
         |apply Z.lt_succ_r; apply Z.div_lt_upper_bound; lia].
Qed.

(** X16. The list of scanned devices of [useOBD] never holds an id twice:
    adding a device keeps the ids distinct and the entries already there,
    and the id added is in the list afterwards. *)
Theorem addDevice_keeps_ids_distinct
    (prev : list DeviceEntry) (id : string) (name : option string) :
  NoDup (map entry_id prev) ->
  NoDup (map entry_id (addDevice prev id name)) /\
  In id (map entry_id (addDevice prev id name)) /\
  (forall d, In d prev -> In d (addDevice prev id name)).
Proof.
  intro H. unfold addDevice.
  destruct (existsb (fun d => String.eqb (entry_id d) id) prev) eqn:E.
  - split; [exact H|]. split; [|auto].
    apply existsb_exists in E as (d & Hd & Heq).
    apply String.eqb_eq in Heq. subst id. now apply in_map.
  - split; [|split].
    + rewrite map_app. simpl.
      apply NoDup_app; [exact H|repeat constructor; auto|].
      intros x Hx [<-|[]].
      apply in_map_iff in Hx as (d & Hd1 & Hd2).
      assert (existsb (fun d0 => String.eqb (entry_id d0) id) prev = true).
      { apply existsb_exists. exists d. split; [exact Hd2|].
        rewrite Hd1. apply String.eqb_refl. }
      congruence.
    + rewrite map_app. apply in_or_app. right. now left.
    + intros d Hd. apply in_or_app. now left.
Qed.

Lemma addDevice_keeps_ids_distinct_witness :
  let prev := [mkDeviceEntry "AA:01" "OBDII"; mkDeviceEntry "AA:02" "ELM327"] in
  NoDup (map entry_id (addDevice prev "AA:03" None)) /\
  In "AA:03" (map entry_id (addDevice prev "AA:03" None)) /\
  (forall d, In d prev -> In d (addDevice prev "AA:03" None)).
Proof.
  intro prev.
  apply (addDevice_keeps_ids_distinct prev "AA:03" None).
  repeat constructor; simpl; intuition discriminate.
Defined.

(* ================================================================== *)
(** ** Properties of the compass tape *)
(* ================================================================== *)

Lemma normalizedDeg_mod (deg : Z) :
  normalizedDeg deg = (deg mod 360)%Z /\ (0 <= normalizedDeg deg < 360)%Z.
Proof.
  unfold normalizedDeg. Z.to_euclidean_division_equations. lia.
Qed.

Lemma normalizedDeg_ten (k : Z) :
  exists j : nat, j < 36 /\ normalizedDeg (10 * k) = (10 * Z.of_nat j)%Z.
Proof.
  destruct (normalizedDeg_mod (10 * k)) as [E B].
  exists (Z.to_nat (normalizedDeg (10 * k) / 10)).
  assert (H : (normalizedDeg (10 * k) mod 10 = 0)%Z).
  { rewrite E. Z.to_euclidean_division_equations. lia. }
  split.
  - apply Nat2Z.inj_lt. rewrite Z2Nat.id by (apply Z.div_pos; lia).
    apply Z.div_lt_upper_bound; lia.
  - rewrite Z2Nat.id by (apply Z.div_pos; lia).
    Z.to_euclidean_division_equations. lia.
Qed.

(** X17. The degree of a mark is normalized to its residue modulo 360,
    between 0 and 359, for negative degrees too. *)
Theorem normalizedDeg_is_the_residue (deg : Z) :
  normalizedDeg deg = (deg mod 360)%Z /\ (0 <= normalizedDeg deg < 360)%Z.
Proof. exact (normalizedDeg_mod deg). Qed.

(** X18. The marks of the tape stand at multiples of ten degrees, and
    there none is intercardinal: the tick is long with the letter N, E, S
    or W at the multiples of 90, of middle length with the number at the
    other multiples of 30, short and bare elsewhere; NE, SE, SW and NW are
    never drawn. *)
Theorem tape_marks_at_multiples_of_ten (k : Z) :
  isInterCardinal (10 * k) = false /\
  (tickLength (10 * k), mark_label (10 * k))
  = tape_mark ((10 * k) mod 360).
Proof.
  destruct (normalizedDeg_ten k) as (j & Hj & E).
  destruct (normalizedDeg_mod (10 * k)) as [M _].
  rewrite <- M.
  unfold isInterCardinal, tickLength, mark_label, isInterCardinal, isCardinal,
    isMajor.
  rewrite E. clear E M k.
  do 36 (destruct j as [|j]; [vm_compute; split; reflexivity|]).
  lia.
Qed.

(* ================================================================== *)
(** ** Chunking *)
(* ================================================================== *)

Lemma append_assoc (a b c : string) :
  ((a ++ b) ++ c)%string = (a ++ b ++ c)%string.
Proof. induction a as [|x a IH]; simpl; [reflexivity|now rewrite IH]. Qed.

Lemma includes_app (sep : ascii) (a b : string) :
  includes sep (a ++ b)%string = (includes sep a || includes sep b)%bool.
Proof.
  induction a as [|x a IH]; simpl; [reflexivity|].
  destruct (Ascii.eqb x sep); [reflexivity|exact IH].
Qed.

Lemma handleResponse_buffers (callback : listener -> OBDData -> list listener)
    (c : string) (st : OBDService) :
  includes ">" (responseBuffer st) = false ->
  includes ">" c = false ->
  handleResponse callback c st
  = set_responseBuffer (responseBuffer st ++ c)%string st.
Proof.
  intros Hb Hc. unfold handleResponse.
  change (responseBuffer (set_responseBuffer ?b st)) with b.
  cbn [responseBuffer set_responseBuffer].
  now rewrite includes_app, Hb, Hc.
Qed.

(** X19. However a text is cut into chunks, as long as no chunk but the
    last holds the prompt [>], handling the chunks one after the other
    leaves the service as handling the whole text at once does; and the
    buffer never holds a prompt afterwards. *)
Theorem chunking_is_immaterial
    (callback : listener -> OBDData -> list listener)
    (cs : list string) (c : string) (st : OBDService) :
  includes ">" (responseBuffer st) = false ->
  Forall (fun x => includes ">" x = false) cs ->
  handle_all callback (cs ++ [c]) st
  = handleResponse callback (flatten cs ++ c)%string st /\
  includes ">" (responseBuffer (handle_all callback (cs ++ [c]) st)) = false.
Proof.
  intros Hb H. revert st Hb.
  induction H as [|c1 cs H1 _ IH]; intros st Hb.
  - simpl. split; [reflexivity|].
    unfold handleResponse.
    destruct (includes ">"
                (responseBuffer
                   (set_responseBuffer (responseBuffer st ++ c)%string st)))
      eqn:E; [reflexivity|exact E].
  - change (handle_all callback ((c1 :: cs) ++ [c]) st)
      with (handle_all callback (cs ++ [c]) (handleResponse callback c1 st)).
    rewrite (handleResponse_buffers callback c1 st Hb H1).
    set (st1 := set_responseBuffer (responseBuffer st ++ c1)%string st).
    assert (Hb1 : includes ">" (responseBuffer st1) = false).
    { unfold st1; simpl. now rewrite includes_app, Hb, H1. }
    destruct (IH st1 Hb1) as [E1 E2]. split; [|exact E2].
    rewrite E1. unfold handleResponse, st1.
    cbn [responseBuffer set_responseBuffer flatten fold_right].
    rewrite !append_assoc. reflexivity.
Qed.

Lemma chunking_is_immaterial_witness :
  handle_all (fun _ _ => []) (["41"; " 0C"; " 1A "] ++ ["F8>410D"]) new_OBDService
  = handleResponse (fun _ _ => [])
      (flatten ["41"; " 0C"; " 1A "] ++ "F8>410D")%string new_OBDService /\
  includes ">"
    (responseBuffer
       (handle_all (fun _ _ => []) (["41"; " 0C"; " 1A "] ++ ["F8>410D"])
          new_OBDService)) = false.
Proof.
  apply (chunking_is_immaterial (fun _ _ => [])
           ["41"; " 0C"; " 1A "] "F8>410D" new_OBDService).
  - reflexivity.
  - repeat constructor.
Defined.

(** X20. Once the buffer and the chunk together hold a prompt, every
    piece between prompts is decoded at once and in order, the text after
    the last prompt too: it is not kept for the next chunk, and the buffer
    is empty afterwards. *)
Theorem text_after_the_last_prompt_is_decoded
    (callback : listener -> OBDData -> list listener)
    (s0 s1 : string) (rest : list string) (st : OBDService) :
  responseBuffer st = EmptyString ->
  Forall (fun r => includes ">" r = false) (s0 :: s1 :: rest) ->
  handleResponse callback (join ">" (s0 :: s1 :: rest)) st
  = fold_left (fun s r => parseOBDResponse callback (trim r) s)
      (s0 :: s1 :: rest) st /\
  responseBuffer (handleResponse callback (join ">" (s0 :: s1 :: rest)) st)
  = EmptyString.
Proof.
  intros Hb Hall.
  assert (Hsplit : split ">" (join ">" (s0 :: s1 :: rest)) = s0 :: s1 :: rest).
  { apply split_join; [discriminate|exact Hall]. }
  assert (Hinc : includes ">" (join ">" (s0 :: s1 :: rest)) = true).
  { change (join ">" (s0 :: s1 :: rest))
      with (s0 ++ String ">" (join ">" (s1 :: rest)))%string.
    apply includes_append. }
  assert (E : handleResponse callback (join ">" (s0 :: s1 :: rest)) st
              = fold_left (fun s r => parseOBDResponse callback (trim r) s)
                  (s0 :: s1 :: rest) st).
  { unfold handleResponse. rewrite Hb.
    change (responseBuffer (set_responseBuffer ?b st)) with b.
    cbn [append].
    replace (responseBuffer
               (set_responseBuffer (join ">" (s0 :: s1 :: rest)) st))
      with (join ">" (s0 :: s1 :: rest)) by reflexivity.
    rewrite Hinc, Hsplit.
    rewrite parse_all_buffer, set_responseBuffer_twice.
    pose proof (parse_all_keeps_buffer callback (s0 :: s1 :: rest) st) as Hrb.
    rewrite Hb in Hrb.
    destruct (fold_left _ (s0 :: s1 :: rest) st) eqn:F.
    unfold set_responseBuffer; simpl in *. now rewrite Hrb. }
  split; [exact E|].
  rewrite E, parse_all_keeps_buffer. exact Hb.
Qed.

Lemma text_after_the_last_prompt_is_decoded_witness :
  handleResponse (fun _ _ => []) (join ">" ["410D50"; "410C1A"]) new_OBDService
  = fold_left (fun s r => parseOBDResponse (fun _ _ => []) (trim r) s)
      ["410D50"; "410C1A"] new_OBDService /\
  responseBuffer
    (handleResponse (fun _ _ => []) (join ">" ["410D50"; "410C1A"])
       new_OBDService) = EmptyString.
Proof.
  apply (text_after_the_last_prompt_is_decoded (fun _ _ => [])
           "410D50" "410C1A" [] new_OBDService).
  - reflexivity.
  - repeat constructor.
Defined.

(* ================================================================== *)
(** ** The numeric fields across a session *)
(* ================================================================== *)






